(** * Virtual Queue Manager: a shallow embedding and its specification

    The development embeds [virtual_queue_manager.py] (classes [Booking],
    [ServiceQueue] and [VirtualQueueManager]) and proves the properties the
    design document states about it.

    Modelling choices.
    - Python [int] is [Z] (unbounded); [len] of a container is [Z.of_nat] of
      a list length.
    - Python [str] is [string].  The models of [str.upper], [str.strip]
      and of padding to a width are those of ASCII text: [upper] maps
      [a]-[z] to [A]-[Z] and leaves every other character alone, [strip]
      removes the ASCII white space characters (codes 9-13, 28-32) from
      both ends, and a width counts one column per character.  On text
      outside ASCII Python does more (it upper-cases and strips Unicode
      characters, and counts code points), so every statement below that
      depends on what these functions compute is made for ASCII text, by
      an explicit [is_ascii] hypothesis.
    - A [deque] is a list: [append] adds at the end, [popleft] removes the
      head.
    - The [services] dict is an association list in insertion order (its
      iteration order is observable through [queue_status] and the history
      snapshots); assigning to an existing key keeps the key's position.
      A [ServiceQueue] object is reachable only through that dict, so a
      method that mutates the object is a replacement of the value stored
      under its key.
    - The [booking_index] dict, whose order is never observed, is a [gmap].
    - A method that mutates [self] takes the state and returns the result
      together with the new state. *)

From Stdlib Require Import ZArith List Ascii String Lia Bool.
From Stdlib Require Import Decimal DecimalString DecimalFacts DecimalPos DecimalN.
From stdpp Require Import base option list gmap strings.
Import ListNotations.

Local Open Scope Z_scope.
Local Open Scope string_scope.

(** ** Python built-ins used by the program *)

Module Py.

(** [str.upper] as it acts on ASCII text: only [a]-[z] change.  It agrees
    with Python on ASCII strings and on no others. *)
Definition upper_char (c : ascii) : ascii :=
  let n := N_of_ascii c in
  if ((97 <=? n) && (n <=? 122))%N then ascii_of_N (n - 32) else c.

Fixpoint upper (s : string) : string :=
  match s with
  | EmptyString => EmptyString
  | String c r => String (upper_char c) (upper r)
  end.

(** [str.isspace] for one ASCII character: codes 9-13 and 28-32.  The
    white space characters outside ASCII that Python also knows are not
    covered. *)
Definition isspace (c : ascii) : bool :=
  let n := N_of_ascii c in
  (((9 <=? n) && (n <=? 13)) || ((28 <=? n) && (n <=? 32)))%N.

Fixpoint lstrip (s : string) : string :=
  match s with
  | EmptyString => EmptyString
  | String c r => if isspace c then lstrip r else s
  end.

Fixpoint rstrip (s : string) : string :=
  match s with
  | EmptyString => EmptyString
  | String c r =>
      match rstrip r with
      | EmptyString => if isspace c then EmptyString else String c EmptyString
      | r' => String c r'
      end
  end.

(** [str.strip()] with no argument, as it acts on ASCII text. *)
Definition strip (s : string) : string := rstrip (lstrip s).

(** Truth value of a [str]: the empty string is false. *)
Definition truthy (s : string) : bool :=
  match s with EmptyString => false | _ => true end.

(** A run of [k] zero characters. *)
Fixpoint zeros (k : nat) : string :=
  match k with
  | O => EmptyString
  | S k' => String "0" (zeros k')
  end.

(** Left padding with zeros up to [width] characters; a string that is
    already that long is left as it is. *)
Definition zfill (width : nat) (s : string) : string :=
  zeros (width - String.length s) ++ s.

(** The decimal digits of a natural number, without leading zeros
    ([str(n)] for [n >= 0]). *)
Definition digits (n : N) : string := NilZero.string_of_uint (N.to_uint n).

(** [format(n, "03d")]: decimal, zero-padded to a minimum width of 3; the
    sign of a negative number comes first and counts for the width. *)
Definition format_03d (n : Z) : string :=
  if (n <? 0)%Z then "-" ++ zfill 2 (digits (Z.to_N (- n)))
  else zfill 3 (digits (Z.to_N n)).

(** A [dict] with string keys whose iteration order matters. *)
Definition dict (V : Type) : Type := list (string * V).

Fixpoint dict_get {V} (k : string) (d : dict V) : option V :=
  match d with
  | [] => None
  | (k', v) :: d' => if String.eqb k' k then Some v else dict_get k d'
  end.

(** [d[k] = v]: an existing key keeps its position, a new key goes last. *)
Fixpoint dict_set {V} (k : string) (v : V) (d : dict V) : dict V :=
  match d with
  | [] => [(k, v)]
  | (k', v') :: d' =>
      if String.eqb k' k then (k', v) :: d' else (k', v') :: dict_set k v d'
  end.

Definition dict_values {V} (d : dict V) : list V := map snd d.
Definition dict_keys {V} (d : dict V) : list string := map fst d.

End Py.

(** ** [Booking] (a frozen dataclass) *)

Module Booking.

Record t : Type := mk {
  token : string;
  user_name : string;
  service_id : string;
  estimated_wait_minutes_at_booking : Z
}.

End Booking.

(** ** [ServiceQueue] *)

Module ServiceQueue.

Record t : Type := mk {
  service_id : string;
  display_name : string;
  daily_capacity : Z;
  avg_service_minutes : Z;
  waiting : list Booking.t;
  total_bookings_created : Z;
  next_token_number : Z;
  served_count : Z
}.

(** [__init__] *)
Definition init (service_id display_name : string)
    (daily_capacity avg_service_minutes : Z) : t :=
  {| service_id := service_id;
     display_name := display_name;
     daily_capacity := daily_capacity;
     avg_service_minutes := avg_service_minutes;
     waiting := [];
     total_bookings_created := 0;
     next_token_number := 1;
     served_count := 0 |}.

Definition is_full (self : t) : bool :=
  total_bookings_created self >=? daily_capacity self.

Definition people_waiting (self : t) : Z :=
  Z.of_nat (length (waiting self)).

Definition estimate_wait_minutes (self : t) : Z :=
  Z.of_nat (length (waiting self)) * avg_service_minutes self.

Definition create_booking (user_name : string) (self : t)
    : option Booking.t * t :=
  if is_full self then (None, self)
  else
    let token :=
      Py.upper (service_id self) ++ "-"
        ++ Py.format_03d (next_token_number self) in
    let estimated_wait := estimate_wait_minutes self in
    let booking :=
      {| Booking.token := token;
         Booking.user_name := user_name;
         Booking.service_id := service_id self;
         Booking.estimated_wait_minutes_at_booking := estimated_wait |} in
    (Some booking,
     {| service_id := service_id self;
        display_name := display_name self;
        daily_capacity := daily_capacity self;
        avg_service_minutes := avg_service_minutes self;
        waiting := waiting self ++ [booking];
        total_bookings_created := total_bookings_created self + 1;
        next_token_number := next_token_number self + 1;
        served_count := served_count self |}).

Definition mark_next_served (self : t) : option Booking.t * t :=
  match waiting self with
  | [] => (None, self)
  | served_booking :: rest =>
      (Some served_booking,
       {| service_id := service_id self;
          display_name := display_name self;
          daily_capacity := daily_capacity self;
          avg_service_minutes := avg_service_minutes self;
          waiting := rest;
          total_bookings_created := total_bookings_created self;
          next_token_number := next_token_number self;
          served_count := served_count self + 1 |})
  end.

End ServiceQueue.

(** ** [VirtualQueueManager] *)

Module VirtualQueueManager.

(** One service configuration tuple
    [(service_id, display_name, daily_capacity, avg_minutes)]. *)
Definition config : Type := (string * string * Z * Z)%type.

(** One row of [queue_status]: a dict with six fixed keys. *)
Record status_row : Type := mk_row {
  row_waiting : Z;
  row_served : Z;
  row_booked_total : Z;
  row_capacity : Z;
  row_avg_service_minutes : Z;
  row_est_wait_new_user : Z
}.

Record t : Type := mk {
  services : Py.dict ServiceQueue.t;
  booking_index : gmap string Booking.t;
  history : list (Py.dict Z)
}.

(** The result tuple [(ok, message, booking)] of the two operations. *)
Definition result : Type := (bool * string * option Booking.t)%type.

Definition ok (r : result) : bool := r.1.1.
Definition message (r : result) : string := r.1.2.
Definition booking (r : result) : option Booking.t := r.2.

Definition _record_history (self : t) : t :=
  let snapshot :=
    map (fun '(sid, service) => (sid, ServiceQueue.people_waiting service))
        (services self) in
  {| services := services self;
     booking_index := booking_index self;
     history := history self ++ [snapshot] |}.

(** [__init__] *)
Definition init (service_configs : list config) : t :=
  let services :=
    fold_left
      (fun acc '(service_id, display_name, daily_capacity, avg_minutes) =>
         Py.dict_set service_id
           (ServiceQueue.init service_id display_name daily_capacity avg_minutes)
           acc)
      service_configs [] in
  _record_history
    {| services := services; booking_index := ∅; history := [] |}.

Definition list_services (self : t) : list ServiceQueue.t :=
  Py.dict_values (services self).

Definition book_slot (user_name service_id : string) (self : t)
    : result * t :=
  match Py.dict_get service_id (services self) with
  | None =>
      ((false, "Invalid service id: '" ++ service_id ++ "'.", None), self)
  | Some service =>
      if negb (Py.truthy (Py.strip user_name)) then
        ((false, "User name cannot be empty.", None), self)
      else
        match ServiceQueue.create_booking (Py.strip user_name) service with
        | (None, _) =>
            ((false,
              "Service '" ++ ServiceQueue.display_name service
                ++ "' is at full daily capacity.",
              None), self)
        | (Some booking, service') =>
            let self1 :=
              {| services := Py.dict_set service_id service' (services self);
                 booking_index :=
                   <[Booking.token booking := booking]> (booking_index self);
                 history := history self |} in
            ((true, "Booking confirmed.", Some booking),
             _record_history self1)
        end
  end.

Definition mark_served (service_id : string) (self : t) : result * t :=
  match Py.dict_get service_id (services self) with
  | None =>
      ((false, "Invalid service id: '" ++ service_id ++ "'.", None), self)
  | Some service =>
      match ServiceQueue.mark_next_served service with
      | (None, _) =>
          ((false,
            "Queue is empty for service '"
              ++ ServiceQueue.display_name service ++ "'.",
            None), self)
      | (Some served, service') =>
          let self1 :=
            {| services := Py.dict_set service_id service' (services self);
               booking_index := booking_index self;
               history := history self |} in
          ((true,
            "Marked served: token " ++ Booking.token served ++ " ("
              ++ Booking.user_name served ++ ").",
            Some served),
           _record_history self1)
      end
  end.

Definition queue_status (self : t) : list status_row * t :=
  (map (fun service =>
          {| row_waiting := ServiceQueue.people_waiting service;
             row_served := ServiceQueue.served_count service;
             row_booked_total := ServiceQueue.total_bookings_created service;
             row_capacity := ServiceQueue.daily_capacity service;
             row_avg_service_minutes := ServiceQueue.avg_service_minutes service;
             row_est_wait_new_user :=
               ServiceQueue.estimate_wait_minutes service |})
       (Py.dict_values (services self)),
   self).

End VirtualQueueManager.

Import VirtualQueueManager.

(** ** Sequences of calls *)

(** The two state-changing operations of the manager. *)
Inductive call : Type :=
  | Book (user_name service_id : string)
  | Serve (service_id : string).

Definition exec (c : call) (m : t) : result * t :=
  match c with
  | Book user_name service_id => book_slot user_name service_id m
  | Serve service_id => mark_served service_id m
  end.

(** Runs the calls in order; returns each call with its result, and the
    final state. *)
Fixpoint run (cs : list call) (m : t) : list (call * result) * t :=
  match cs with
  | [] => ([], m)
  | c :: cs' =>
      let '(r, m1) := exec c m in
      let '(evs, m2) := run cs' m1 in
      ((c, r) :: evs, m2)
  end.

(** The state reached, and the events observed, when the calls [cs] are
    made on a manager freshly constructed from [cfgs]. *)
Definition state_after (cfgs : list config) (cs : list call) : t :=
  (run cs (init cfgs)).2.

Definition trace_of (cfgs : list config) (cs : list call)
    : list (call * result) :=
  (run cs (init cfgs)).1.

(** The bookings handed out by the successful [book_slot] calls for
    service [sid], in call order. *)
Definition admitted (sid : string) (evs : list (call * result))
    : list Booking.t :=
  omap (fun '(c, r) =>
          match c with
          | Book _ k => if String.eqb k sid && ok r then booking r else None
          | Serve _ => None
          end) evs.

(** The bookings returned by the successful [mark_served] calls on
    service [sid], in call order. *)
Definition served (sid : string) (evs : list (call * result))
    : list Booking.t :=
  omap (fun '(c, r) =>
          match c with
          | Serve k => if String.eqb k sid && ok r then booking r else None
          | Book _ _ => None
          end) evs.

(** Number of successful calls in a trace. *)
Definition successes (evs : list (call * result)) : nat :=
  length (filter (fun e => ok e.2 = true) evs).

(** The waiting line of service [sid], empty when there is no such
    service. *)
Definition waiting_of (sid : string) (m : t) : list Booking.t :=
  match Py.dict_get sid (services m) with
  | Some s => ServiceQueue.waiting s
  | None => []
  end.

(** ** Relations used to state and prove the properties *)

(** The two ways in which a manager call changes a service object: one
    admission or one serve. *)
Inductive sq_step : ServiceQueue.t -> ServiceQueue.t -> Prop :=
  | sq_admit u s b s' :
      ServiceQueue.create_booking u s = (Some b, s') -> sq_step s s'
  | sq_serve s b s' :
      ServiceQueue.mark_next_served s = (Some b, s') -> sq_step s s'.

(** The shape of every outcome of [book_slot]. *)
Inductive book_slot_spec (u sid : string) (m : t) : result * t -> Prop :=
  | book_unknown :
      Py.dict_get sid (services m) = None ->
      book_slot_spec u sid m
        ((false, "Invalid service id: '" ++ sid ++ "'.", None), m)
  | book_empty_name s :
      Py.dict_get sid (services m) = Some s ->
      Py.strip u = "" ->
      book_slot_spec u sid m ((false, "User name cannot be empty.", None), m)
  | book_full s :
      Py.dict_get sid (services m) = Some s ->
      Py.strip u <> "" ->
      ServiceQueue.is_full s = true ->
      book_slot_spec u sid m
        ((false,
          "Service '" ++ ServiceQueue.display_name s
            ++ "' is at full daily capacity.", None), m)
  | book_ok s b s' :
      Py.dict_get sid (services m) = Some s ->
      Py.strip u <> "" ->
      ServiceQueue.create_booking (Py.strip u) s = (Some b, s') ->
      book_slot_spec u sid m
        ((true, "Booking confirmed.", Some b),
         {| services := Py.dict_set sid s' (services m);
            booking_index := <[Booking.token b := b]> (booking_index m);
            history :=
              (history m
               ++ [map (fun '(k, q) => (k, ServiceQueue.people_waiting q))
                     (Py.dict_set sid s' (services m))])%list |}).

(** The shape of every outcome of [mark_served]. *)
Inductive mark_served_spec (sid : string) (m : t) : result * t -> Prop :=
  | serve_unknown :
      Py.dict_get sid (services m) = None ->
      mark_served_spec sid m
        ((false, "Invalid service id: '" ++ sid ++ "'.", None), m)
  | serve_empty s :
      Py.dict_get sid (services m) = Some s ->
      ServiceQueue.waiting s = [] ->
      mark_served_spec sid m
        ((false,
          "Queue is empty for service '" ++ ServiceQueue.display_name s
            ++ "'.", None), m)
  | serve_ok s b s' :
      Py.dict_get sid (services m) = Some s ->
      ServiceQueue.mark_next_served s = (Some b, s') ->
      mark_served_spec sid m
        ((true,
          "Marked served: token " ++ Booking.token b ++ " ("
            ++ Booking.user_name b ++ ").", Some b),
         {| services := Py.dict_set sid s' (services m);
            booking_index := booking_index m;
            history :=
              (history m
               ++ [map (fun '(k, q) => (k, ServiceQueue.people_waiting q))
                     (Py.dict_set sid s' (services m))])%list |}).

(** The effect of one call [c] with result [r] on the service stored under
    [sid], together with what the call adds to the admitted and served
    sequences of [sid]. *)
Inductive sid_view (sid : string) (s : ServiceQueue.t) (c : call)
    (r : result) (o : option ServiceQueue.t) : Prop :=
  | view_idle :
      o = Some s ->
      admitted sid [(c, r)] = [] -> served sid [(c, r)] = [] ->
      sid_view sid s c r o
  | view_admit u b s' :
      o = Some s' ->
      ServiceQueue.create_booking u s = (Some b, s') ->
      admitted sid [(c, r)] = [b] -> served sid [(c, r)] = [] ->
      sid_view sid s c r o
  | view_serve b s' :
      o = Some s' ->
      ServiceQueue.mark_next_served s = (Some b, s') ->
      admitted sid [(c, r)] = [] -> served sid [(c, r)] = [b] ->
      sid_view sid s c r o.

(** The facts that hold of every service object of a reachable state,
    stored under key [k]. *)
Record sq_inv (k : string) (s : ServiceQueue.t) : Prop := {
  inv_key : ServiceQueue.service_id s = k;
  inv_total :
    ServiceQueue.total_bookings_created s
    = ServiceQueue.served_count s + ServiceQueue.people_waiting s;
  inv_next :
    ServiceQueue.next_token_number s
    = ServiceQueue.total_bookings_created s + 1;
  inv_served : 0 <= ServiceQueue.served_count s;
  inv_capacity :
    0 <= ServiceQueue.daily_capacity s ->
    ServiceQueue.total_bookings_created s <= ServiceQueue.daily_capacity s
}.

(** ** Reading a token back *)

Definition is_digit (c : ascii) : bool :=
  let n := N_of_ascii c in ((48 <=? n) && (n <=? 57))%N.

Fixpoint all_digits (s : string) : bool :=
  match s with
  | EmptyString => true
  | String c r => is_digit c && all_digits r
  end.

(** The number a non-empty string of decimal digits denotes (leading
    zeros allowed); [None] for any other string. *)
Definition decimal_value (s : string) : option N :=
  N.of_uint <$> NilZero.uint_of_string s.

(** No two configured service ids have the same upper-case form. *)
Definition case_distinct_ids (m : t) : Prop :=
  forall k1 k2,
    In k1 (Py.dict_keys (services m)) -> In k2 (Py.dict_keys (services m)) ->
    Py.upper k1 = Py.upper k2 -> k1 = k2.

(** The index entry [tok |-> b] is a booking of a configured service that
    carries a number this service has already handed out. *)
Definition index_entry_ok (m : t) (tok : string) (b : Booking.t) : Prop :=
  exists s n,
    Py.dict_get (Booking.service_id b) (services m) = Some s
    /\ tok = Py.upper (Booking.service_id b) ++ "-" ++ Py.format_03d n
    /\ 0 <= n < ServiceQueue.next_token_number s.

(** A string made of white space only (the empty string included). *)
Fixpoint all_space (s : string) : bool :=
  match s with
  | EmptyString => true
  | String c r => Py.isspace c && all_space r
  end.

(** [tok] is the upper-cased [sid], a hyphen, and exactly three decimal
    digits that denote [n]. *)
Definition three_digit_token (sid : string) (n : N) (tok : string) : Prop :=
  exists num,
    tok = Py.upper sid ++ "-" ++ num
    /\ String.length num = 3%nat
    /\ all_digits num = true
    /\ decimal_value num = Some n.

(** ** Small configurations used to exercise the statements *)

Definition doctor_cfgs : list config :=
  [("cashier", "Cashier", 3, 5); ("doctor", "Doctor Consultation", 2, 10)].

Definition asha : Booking.t :=
  {| Booking.token := "DOCTOR-001"; Booking.user_name := "Asha";
     Booking.service_id := "doctor";
     Booking.estimated_wait_minutes_at_booking := 0 |}.

Definition ben : Booking.t :=
  {| Booking.token := "DOCTOR-002"; Booking.user_name := "Ben";
     Booking.service_id := "doctor";
     Booking.estimated_wait_minutes_at_booking := 10 |}.

(** The [doctor] service once Asha and Ben are booked and Asha is served. *)
Definition doctor_busy : ServiceQueue.t :=
  {| ServiceQueue.service_id := "doctor";
     ServiceQueue.display_name := "Doctor Consultation";
     ServiceQueue.daily_capacity := 2;
     ServiceQueue.avg_service_minutes := 10;
     ServiceQueue.waiting := [ben];
     ServiceQueue.total_bookings_created := 2;
     ServiceQueue.next_token_number := 3;
     ServiceQueue.served_count := 1 |}.

(** The [doctor] service once Asha and Ben are booked: it is full. *)
Definition doctor_full : ServiceQueue.t :=
  {| ServiceQueue.service_id := "doctor";
     ServiceQueue.display_name := "Doctor Consultation";
     ServiceQueue.daily_capacity := 2;
     ServiceQueue.avg_service_minutes := 10;
     ServiceQueue.waiting := [asha; ben];
     ServiceQueue.total_bookings_created := 2;
     ServiceQueue.next_token_number := 3;
     ServiceQueue.served_count := 0 |}.

(** The [doctor] service once Asha alone is booked. *)
Definition doctor_one : ServiceQueue.t :=
  {| ServiceQueue.service_id := "doctor";
     ServiceQueue.display_name := "Doctor Consultation";
     ServiceQueue.daily_capacity := 2;
     ServiceQueue.avg_service_minutes := 10;
     ServiceQueue.waiting := [asha];
     ServiceQueue.total_bookings_created := 1;
     ServiceQueue.next_token_number := 2;
     ServiceQueue.served_count := 0 |}.

(** The [cashier] service as constructed, before any call. *)
Definition cashier_idle : ServiceQueue.t :=
  ServiceQueue.init "cashier" "Cashier" 3 5.

(** A service that admits a thousand bookings, and its thousandth. *)
Definition depot_cfgs : list config := [("d", "Depot", 1000, 1)].

Definition depot_calls : list call := repeat (Book "x" "d") 1000.

Definition depot_1000 : Booking.t :=
  {| Booking.token := "D-1000"; Booking.user_name := "x";
     Booking.service_id := "d";
     Booking.estimated_wait_minutes_at_booking := 999 |}.

(** Two services whose ids differ only by case, and the first booking of
    the second one. *)
Definition twin_cfgs : list config :=
  [("doctor", "Doctor Consultation", 2, 10);
   ("DOCTOR", "Doctor Annex", 2, 10)].

Definition twin_calls : list call :=
  [Book "Asha" "doctor"; Book "Ben" "DOCTOR"].

Definition ben_annex : Booking.t :=
  {| Booking.token := "DOCTOR-001"; Booking.user_name := "Ben";
     Booking.service_id := "DOCTOR";
     Booking.estimated_wait_minutes_at_booking := 0 |}.

Definition doctor_calls : list call :=
  [Book "Asha" "doctor"; Book " Ben " "doctor"; Serve "doctor"].

(** ** The text views of the manager and the Streamlit helpers *)

(** More Python built-ins, used by the formatted output. *)
Module PyText.

(** The line feed character, as a string. *)
Definition nl : string := String (ascii_of_nat 10) EmptyString.

Fixpoint spaces (k : nat) : string :=
  match k with
  | O => EmptyString
  | S k' => String " " (spaces k')
  end.

(** The format spec [<width]: the text, then spaces up to [width]
    characters; a longer text is not cut.  The width is counted in
    characters of the [string], which are Python's for ASCII text. *)
Definition ljust (width : nat) (s : string) : string :=
  s ++ spaces (width - String.length s).

(** [str(n)] for an [int]. *)
Definition str_int (n : Z) : string :=
  if (n <? 0)%Z then "-" ++ Py.digits (Z.to_N (- n))
  else Py.digits (Z.to_N n).

(** [format(n, "02d")]. *)
Definition format_02d (n : Z) : string :=
  if (n <? 0)%Z then "-" ++ Py.zfill 1 (Py.digits (Z.to_N (- n)))
  else Py.zfill 2 (Py.digits (Z.to_N n)).

Fixpoint repeat_string (s : string) (k : nat) : string :=
  match k with
  | O => EmptyString
  | S k' => s ++ repeat_string s k'
  end.

(** [s * n]: the empty string when [n] is zero or negative. *)
Definition str_mul (s : string) (n : Z) : string :=
  repeat_string s (Z.to_nat n).

(** [sep.join(parts)]. *)
Fixpoint join (sep : string) (parts : list string) : string :=
  match parts with
  | [] => EmptyString
  | [x] => x
  | x :: rest => x ++ sep ++ join sep rest
  end.

(** [d.get(k, default)]. *)
Definition dict_get_default {V} (k : string) (dflt : V) (d : Py.dict V) : V :=
  match Py.dict_get k d with
  | Some v => v
  | None => dflt
  end.

End PyText.

(** [VirtualQueueManager.queue_status_rows] *)
Definition queue_status_rows (self : t) : list string :=
  map (fun s =>
         PyText.ljust 12 (ServiceQueue.service_id s)
           ++ " | waiting="
           ++ PyText.ljust 3 (PyText.str_int (ServiceQueue.people_waiting s))
           ++ " | served="
           ++ PyText.ljust 3 (PyText.str_int (ServiceQueue.served_count s))
           ++ " | booked="
           ++ PyText.ljust 3
                (PyText.str_int (ServiceQueue.total_bookings_created s))
           ++ "/"
           ++ PyText.ljust 3 (PyText.str_int (ServiceQueue.daily_capacity s))
           ++ " | avg="
           ++ PyText.str_int (ServiceQueue.avg_service_minutes s)
           ++ "m | est_wait_new="
           ++ PyText.str_int (ServiceQueue.estimate_wait_minutes s)
           ++ "m")
      (Py.dict_values (services self)).

(** One [event] line of the graph: the f-string of the inner loop of
    [print_history_graph]. *)
Definition event_line (i : nat) (q_len : Z) : string :=
  "event " ++ PyText.format_02d (Z.of_nat i) ++ ": "
    ++ PyText.str_mul "#" q_len ++ " (" ++ PyText.str_int q_len ++ ")".

(** The lines a service contributes to the graph: its title, then one
    line per history snapshot. *)
Definition graph_block (self : t) (service_id : string)
    (service : ServiceQueue.t) : list string :=
  (PyText.nl ++ ServiceQueue.display_name service ++ " [" ++ service_id
     ++ "]")
  :: imap (fun i snapshot =>
             event_line i (PyText.dict_get_default service_id 0 snapshot))
       (history self).

(** The list [lines] built by [print_history_graph]. *)
Definition history_graph_lines (self : t) : list string :=
  "Queue Length vs Event (ASCII graph)"
  :: flat_map (fun '(service_id, service) =>
                 graph_block self service_id service)
       (services self).

(** [VirtualQueueManager.print_history_graph] *)
Definition print_history_graph (self : t) : string :=
  PyText.join PyText.nl (history_graph_lines self).

(** [streamlit_app.py]: the configuration of the page and its service
    selector. *)
Module StreamlitApp.

Definition DEFAULT_SERVICE_CONFIGS : list config :=
  [("cashier", "Cashier", 20, 4);
   ("doctor", "Doctor Consultation", 15, 12);
   ("consult", "General Consultation", 25, 8)].

(** The dict comprehension [{s.display_name: s.service_id for s in ...}]:
    a display name met again keeps its place and takes the later id. *)
Definition service_options (manager : t) : Py.dict string :=
  fold_left
    (fun acc s =>
       Py.dict_set (ServiceQueue.display_name s) (ServiceQueue.service_id s)
         acc)
    (list_services manager) [].

End StreamlitApp.

(** ** Vocabulary of the further properties *)

(** The service object built from the last configuration tuple whose id
    is [sid]. *)
Fixpoint last_configured (sid : string) (cfgs : list config)
    : option ServiceQueue.t :=
  match cfgs with
  | [] => None
  | (k, dn, cap, avg) :: rest =>
      match last_configured sid rest with
      | Some s => Some s
      | None =>
          if String.eqb k sid then Some (ServiceQueue.init k dn cap avg)
          else None
      end
  end.

(** The service object a configuration tuple stands for. *)
Definition service_of_config (c : config) : string * ServiceQueue.t :=
  let '(k, dn, cap, avg) := c in (k, ServiceQueue.init k dn cap avg).

(** The service id a call names. *)
Definition call_service (c : call) : string :=
  match c with
  | Book _ sid => sid
  | Serve sid => sid
  end.

(** [s'] is a later stage of the service object [s]: same configuration,
    counters not smaller. *)
Record sq_later (s s' : ServiceQueue.t) : Prop := {
  later_id : ServiceQueue.service_id s' = ServiceQueue.service_id s;
  later_name : ServiceQueue.display_name s' = ServiceQueue.display_name s;
  later_capacity :
    ServiceQueue.daily_capacity s' = ServiceQueue.daily_capacity s;
  later_avg :
    ServiceQueue.avg_service_minutes s'
    = ServiceQueue.avg_service_minutes s;
  later_total :
    ServiceQueue.total_bookings_created s
    <= ServiceQueue.total_bookings_created s';
  later_next :
    ServiceQueue.next_token_number s <= ServiceQueue.next_token_number s';
  later_served : ServiceQueue.served_count s <= ServiceQueue.served_count s'
}.

(** Does the text begin, or end, with a white space character? *)
Definition starts_with_space (s : string) : bool :=
  match s with
  | EmptyString => false
  | String c _ => Py.isspace c
  end.

Fixpoint ends_with_space (s : string) : bool :=
  match s with
  | EmptyString => false
  | String c EmptyString => Py.isspace c
  | String _ r => ends_with_space r
  end.

(** The snapshot [_record_history] takes of a service table. *)
Definition snapshot_of (d : Py.dict ServiceQueue.t) : Py.dict Z :=
  map (fun '(sid, service) => (sid, ServiceQueue.people_waiting service)) d.

(** Number of occurrences of the character [c] in [s]. *)
Fixpoint count_char (c : ascii) (s : string) : nat :=
  match s with
  | EmptyString => O
  | String a r => ((if Ascii.eqb a c then 1 else 0) + count_char c r)%nat
  end.

(** ** ASCII text and the number part of a token *)

(** The text is made of ASCII characters (codes below 128) only. *)
Fixpoint is_ascii (s : string) : bool :=
  match s with
  | EmptyString => true
  | String c r => (N_of_ascii c <? 128)%N && is_ascii r
  end.

(** Every service id of the manager is ASCII text. *)
Definition ascii_ids (m : t) : Prop :=
  forall k, In k (Py.dict_keys (services m)) -> is_ascii k = true.

(** What follows the last hyphen of a text; [None] when there is no
    hyphen. *)
Fixpoint after_last_hyphen (s : string) : option string :=
  match s with
  | EmptyString => None
  | String c r =>
      match after_last_hyphen r with
      | Some t => Some t
      | None => if Ascii.eqb c "-" then Some r else None
      end
  end.

(** The sequence number a token carries: the decimal value of what
    follows its last hyphen. *)
Definition token_number (tok : string) : option N :=
  match after_last_hyphen tok with
  | Some num => decimal_value num
  | None => None
  end.

(** ** Facts about the ordered dict *)

Section Dict.
Context {V : Type}.
Implicit Types (d : Py.dict V) (k : string) (v : V).

Lemma dict_get_set_eq k v d : Py.dict_get k (Py.dict_set k v d) = Some v.
Proof.
  induction d as [|[k' v'] d IH]; simpl.
  - by rewrite String.eqb_refl.
  - destruct (String.eqb k' k) eqn:E; simpl; rewrite E; auto.
Qed.

Lemma dict_get_set_ne k k' v d :
  k <> k' -> Py.dict_get k' (Py.dict_set k v d) = Py.dict_get k' d.
Proof.
  intros Hne. induction d as [|[k0 v0] d IH]; simpl.
  - apply String.eqb_neq in Hne. by rewrite Hne.
  - destruct (String.eqb k0 k) eqn:E; simpl.
    + apply String.eqb_eq in E. subst k0.
      apply String.eqb_neq in Hne. by rewrite Hne.
    + by rewrite IH.
Qed.

Lemma dict_get_In k v d : Py.dict_get k d = Some v -> In (k, v) d.
Proof.
  induction d as [|[k' v'] d IH]; simpl; [done|].
  destruct (String.eqb k' k) eqn:E.
  - apply String.eqb_eq in E. intros [= ->]. left. by subst.
  - auto.
Qed.

Lemma dict_keys_set k v v0 d :
  Py.dict_get k d = Some v0 ->
  Py.dict_keys (Py.dict_set k v d) = Py.dict_keys d.
Proof.
  induction d as [|[k' v'] d IH]; simpl; [done|].
  destruct (String.eqb k' k) eqn:E; simpl; [done|].
  intros H. by rewrite IH.
Qed.

Lemma dict_set_Forall (P : string * V -> Prop) k v d :
  Forall P d -> P (k, v) -> Forall P (Py.dict_set k v d).
Proof.
  intros Hd Hv. induction Hd as [|[k' v'] d Hx Hd IH]; simpl.
  - by constructor.
  - destruct (String.eqb k' k) eqn:E.
    + apply String.eqb_eq in E. subst k'. by constructor.
    + by constructor.
Qed.

Lemma dict_get_NoDup_In k v d :
  NoDup (Py.dict_keys d) -> In (k, v) d -> Py.dict_get k d = Some v.
Proof.
  induction d as [|[k' v'] d IH]; simpl; [done|].
  intros Hnd [Heq | Hin].
  - injection Heq as -> ->. by rewrite String.eqb_refl.
  - apply NoDup_cons in Hnd as [Hk Hnd].
    destruct (String.eqb k' k) eqn:E.
    + apply String.eqb_eq in E. subst k'. exfalso. apply Hk.
      apply list_elem_of_In. change k with (fst (k, v)).
      by apply in_map.
    + auto.
Qed.

Lemma dict_keys_set_NoDup k v d :
  NoDup (Py.dict_keys d) -> NoDup (Py.dict_keys (Py.dict_set k v d)).
Proof.
  intros Hnd. destruct (Py.dict_get k d) as [v0|] eqn:G.
  - by rewrite (dict_keys_set _ _ _ _ G).
  - assert (Hnot : k ∉ Py.dict_keys d).
    { clear Hnd. induction d as [|[k' v'] d IH]; simpl in *.
      - apply not_elem_of_nil.
      - destruct (String.eqb k' k) eqn:E; [done|].
        apply String.eqb_neq in E. apply not_elem_of_cons. split; auto. }
    assert (Hk : Py.dict_keys (Py.dict_set k v d) = (Py.dict_keys d ++ [k])%list).
    { clear Hnd Hnot. induction d as [|[k' v'] d IH]; simpl in *; [done|].
      destruct (String.eqb k' k) eqn:E; [done|]. simpl. by rewrite IH. }
    rewrite Hk. apply NoDup_app. split; [done|]. split.
    + intros x Hx Hx'. apply list_elem_of_singleton in Hx'. by subst.
    + apply NoDup_singleton.
Qed.
End Dict.

(** ** One call, case by case *)

Lemma record_history_services m : services (_record_history m) = services m.
Proof. reflexivity. Qed.

Lemma record_history_index m :
  booking_index (_record_history m) = booking_index m.
Proof. reflexivity. Qed.

Lemma create_booking_None u s s' :
  ServiceQueue.create_booking u s = (None, s') ->
  ServiceQueue.is_full s = true /\ s' = s.
Proof.
  unfold ServiceQueue.create_booking.
  destruct (ServiceQueue.is_full s); [|discriminate].
  intros [= <-]. done.
Qed.

Lemma create_booking_Some u s b s' :
  ServiceQueue.create_booking u s = (Some b, s') ->
  ServiceQueue.is_full s = false
  /\ b = {| Booking.token :=
              Py.upper (ServiceQueue.service_id s) ++ "-"
                ++ Py.format_03d (ServiceQueue.next_token_number s);
            Booking.user_name := u;
            Booking.service_id := ServiceQueue.service_id s;
            Booking.estimated_wait_minutes_at_booking :=
              ServiceQueue.estimate_wait_minutes s |}
  /\ ServiceQueue.service_id s' = ServiceQueue.service_id s
  /\ ServiceQueue.display_name s' = ServiceQueue.display_name s
  /\ ServiceQueue.daily_capacity s' = ServiceQueue.daily_capacity s
  /\ ServiceQueue.avg_service_minutes s' = ServiceQueue.avg_service_minutes s
  /\ ServiceQueue.waiting s' = (ServiceQueue.waiting s ++ [b])%list
  /\ ServiceQueue.total_bookings_created s'
     = ServiceQueue.total_bookings_created s + 1
  /\ ServiceQueue.next_token_number s' = ServiceQueue.next_token_number s + 1
  /\ ServiceQueue.served_count s' = ServiceQueue.served_count s.
Proof.
  unfold ServiceQueue.create_booking.
  destruct (ServiceQueue.is_full s); [discriminate|].
  intros [= <- <-]. simpl. repeat split.
Qed.

Lemma mark_next_served_None s s' :
  ServiceQueue.mark_next_served s = (None, s') ->
  ServiceQueue.waiting s = [] /\ s' = s.
Proof.
  unfold ServiceQueue.mark_next_served.
  destruct (ServiceQueue.waiting s); [|discriminate].
  intros [= <-]. done.
Qed.

Lemma mark_next_served_Some s b s' :
  ServiceQueue.mark_next_served s = (Some b, s') ->
  ServiceQueue.waiting s = b :: ServiceQueue.waiting s'
  /\ ServiceQueue.service_id s' = ServiceQueue.service_id s
  /\ ServiceQueue.display_name s' = ServiceQueue.display_name s
  /\ ServiceQueue.daily_capacity s' = ServiceQueue.daily_capacity s
  /\ ServiceQueue.avg_service_minutes s' = ServiceQueue.avg_service_minutes s
  /\ ServiceQueue.total_bookings_created s'
     = ServiceQueue.total_bookings_created s
  /\ ServiceQueue.next_token_number s' = ServiceQueue.next_token_number s
  /\ ServiceQueue.served_count s' = ServiceQueue.served_count s + 1.
Proof.
  unfold ServiceQueue.mark_next_served.
  destruct (ServiceQueue.waiting s) as [|b0 rest]; [discriminate|].
  intros [= <- <-]. simpl. repeat split.
Qed.

Lemma book_slot_cases u sid m : book_slot_spec u sid m (book_slot u sid m).
Proof.
  unfold book_slot.
  destruct (Py.dict_get sid (services m)) as [s|] eqn:G;
    [|by apply book_unknown].
  destruct (Py.strip u) as [|c r] eqn:U; simpl.
  - by eapply book_empty_name.
  - rewrite <- U.
    destruct (ServiceQueue.create_booking (Py.strip u) s) as [[b|] s'] eqn:C.
    + eapply book_ok; eauto. rewrite U. discriminate.
    + apply create_booking_None in C as [F _].
      eapply book_full; eauto. rewrite U. discriminate.
Qed.

Lemma mark_served_cases sid m : mark_served_spec sid m (mark_served sid m).
Proof.
  unfold mark_served.
  destruct (Py.dict_get sid (services m)) as [s|] eqn:G;
    [|by apply serve_unknown].
  destruct (ServiceQueue.mark_next_served s) as [[b|] s'] eqn:C.
  - exact (serve_ok sid m s b s' G C).
  - apply mark_next_served_None in C as [W _]. eapply serve_empty; eauto.
Qed.

(** What one call does to the service table: either nothing, or one
    service object takes one step. *)
Lemma exec_services c m :
  (exec c m).2 = m
  \/ exists k s s',
       Py.dict_get k (services m) = Some s /\ sq_step s s'
       /\ services (exec c m).2 = Py.dict_set k s' (services m).
Proof.
  destruct c as [u sid | sid]; simpl.
  - destruct (book_slot_cases u sid m); auto.
    right. eexists _, _, _. split; [eassumption|]. split; [|reflexivity].
    eapply sq_admit; eauto.
  - destruct (mark_served_cases sid m); auto.
    right. eexists _, _, _. split; [eassumption|]. split; [|reflexivity].
    eapply sq_serve; eauto.
Qed.

Lemma run_app cs1 cs2 m :
  run (cs1 ++ cs2) m =
    let '(evs1, m1) := run cs1 m in
    let '(evs2, m2) := run cs2 m1 in
    ((evs1 ++ evs2)%list, m2).
Proof.
  revert m. induction cs1 as [|c cs1 IH]; intros m; simpl.
  - by destruct (run cs2 m).
  - destruct (exec c m) as [r m1]. rewrite IH.
    destruct (run cs1 m1) as [evs1 m2]. by destruct (run cs2 m2).
Qed.

Lemma run_snoc_state cs c m :
  (run (cs ++ [c]) m).2 = (exec c (run cs m).2).2.
Proof.
  rewrite run_app. destruct (run cs m) as [evs1 m1]. simpl.
  by destruct (exec c m1).
Qed.

(** ** Invariants of reachable states *)

Lemma run_state_ind (Q : t -> Prop) m0 :
  Q m0 -> (forall c m, Q m -> Q (exec c m).2) ->
  forall cs, Q (run cs m0).2.
Proof.
  intros H0 Hstep cs. induction cs as [|c cs IH] using rev_ind.
  - exact H0.
  - rewrite run_snoc_state. by apply Hstep.
Qed.

Section Preservation.
Variable P : string -> ServiceQueue.t -> Prop.
Hypothesis P_init :
  forall k dn cap avg, P k (ServiceQueue.init k dn cap avg).
Hypothesis P_step : forall k s s', P k s -> sq_step s s' -> P k s'.

Lemma init_all cfgs : Forall (fun e => P e.1 e.2) (services (init cfgs)).
Proof.
  unfold init. rewrite record_history_services. simpl.
  assert (G : forall acc : Py.dict ServiceQueue.t,
    Forall (fun e => P e.1 e.2) acc ->
    Forall (fun e => P e.1 e.2)
      (fold_left
         (fun acc '(service_id, display_name, daily_capacity, avg_minutes) =>
            Py.dict_set service_id
              (ServiceQueue.init service_id display_name daily_capacity
                 avg_minutes) acc) cfgs acc)).
  { induction cfgs as [|[[[k dn] cap] avg] cfgs IH]; intros acc Hacc;
      simpl; [done|].
    apply IH. apply dict_set_Forall; [done|]. apply P_init. }
  apply G. constructor.
Qed.

Lemma exec_all c m :
  Forall (fun e => P e.1 e.2) (services m) ->
  Forall (fun e => P e.1 e.2) (services (exec c m).2).
Proof.
  intros Hm. destruct (exec_services c m) as [-> | (k & s & s' & G & St & ->)];
    [done|].
  apply dict_set_Forall; [done|]. simpl.
  apply dict_get_In in G.
  rewrite Forall_forall in Hm.
  apply (P_step k s s'); [|done].
  apply (Hm (k, s)). by apply list_elem_of_In.
Qed.

Lemma reachable_all cfgs cs :
  Forall (fun e => P e.1 e.2) (services (state_after cfgs cs)).
Proof.
  unfold state_after.
  apply (run_state_ind
           (fun m => Forall (fun e => P e.1 e.2) (services m))).
  - apply init_all.
  - intros c m. apply exec_all.
Qed.

Lemma reachable_In cfgs cs k s :
  In (k, s) (services (state_after cfgs cs)) -> P k s.
Proof.
  intros Hin. pose proof (reachable_all cfgs cs) as H.
  rewrite Forall_forall in H.
  apply (H (k, s)). by apply list_elem_of_In.
Qed.

Lemma reachable_get cfgs cs k s :
  Py.dict_get k (services (state_after cfgs cs)) = Some s -> P k s.
Proof. intros G. apply reachable_In with cfgs cs. by apply dict_get_In. Qed.
End Preservation.

Lemma sq_inv_init k dn cap avg : sq_inv k (ServiceQueue.init k dn cap avg).
Proof. split; simpl; try done. Qed.

Lemma sq_inv_step k s s' : sq_inv k s -> sq_step s s' -> sq_inv k s'.
Proof.
  intros [Hk Ht Hn Hs Hc] St.
  inversion St as [u s0 b s1 C | s0 b s1 C]; subst s0 s1.
  - apply create_booking_Some in C
      as (F & _ & E1 & _ & E3 & _ & E5 & E6 & E7 & E8).
    unfold ServiceQueue.is_full in F. rewrite Z.geb_leb in F.
    apply Z.leb_gt in F.
    unfold ServiceQueue.people_waiting in *.
    split; unfold ServiceQueue.people_waiting;
      rewrite ?E1, ?E3, ?E5, ?E6, ?E7, ?E8, ?length_app; simpl;
      try done; lia.
  - apply mark_next_served_Some in C
      as (W & E1 & _ & E3 & _ & E6 & E7 & E8).
    unfold ServiceQueue.people_waiting in *. rewrite W in Ht. simpl in Ht.
    split; unfold ServiceQueue.people_waiting;
      rewrite ?E1, ?E3, ?E6, ?E7, ?E8; try done; lia.
Qed.

Lemma reachable_sq_inv cfgs cs k s :
  In (k, s) (services (state_after cfgs cs)) -> sq_inv k s.
Proof. apply reachable_In; [apply sq_inv_init | apply sq_inv_step]. Qed.

Lemma init_keys_NoDup cfgs : NoDup (Py.dict_keys (services (init cfgs))).
Proof.
  unfold init. rewrite record_history_services. simpl.
  assert (G : forall acc : Py.dict ServiceQueue.t,
    NoDup (Py.dict_keys acc) ->
    NoDup (Py.dict_keys
      (fold_left
         (fun acc '(service_id, display_name, daily_capacity, avg_minutes) =>
            Py.dict_set service_id
              (ServiceQueue.init service_id display_name daily_capacity
                 avg_minutes) acc) cfgs acc))).
  { induction cfgs as [|[[[k dn] cap] avg] cfgs IH]; intros acc Hacc;
      simpl; [done|].
    apply IH. by apply dict_keys_set_NoDup. }
  apply G. constructor.
Qed.

Lemma exec_keys c m :
  Py.dict_keys (services (exec c m).2) = Py.dict_keys (services m).
Proof.
  destruct (exec_services c m) as [-> | (k & s & s' & G & _ & ->)]; [done|].
  by apply dict_keys_set with s.
Qed.

Lemma reachable_keys_NoDup cfgs cs :
  NoDup (Py.dict_keys (services (state_after cfgs cs))).
Proof.
  unfold state_after.
  apply (run_state_ind (fun m => NoDup (Py.dict_keys (services m)))).
  - apply init_keys_NoDup.
  - intros c m. by rewrite exec_keys.
Qed.

(** ** One call, seen from the trace of one service *)

Lemma admitted_failed sid c r : ok r = false -> admitted sid [(c, r)] = [].
Proof.
  intros H. destruct c; simpl; [|done]. by rewrite H, andb_false_r.
Qed.

Lemma served_failed sid c r : ok r = false -> served sid [(c, r)] = [].
Proof.
  intros H. destruct c; simpl; [done|]. by rewrite H, andb_false_r.
Qed.

Lemma exec_view sid s c m :
  Py.dict_get sid (services m) = Some s ->
  sid_view sid s c (exec c m).1 (Py.dict_get sid (services (exec c m).2)).
Proof.
  intros G. destruct c as [u k | k]; unfold exec.
  - destruct (book_slot_cases u k m) as [N | s0 G0 U | s0 G0 U F | s0 b s' G0 U C];
      cbn [fst snd services];
      try (apply view_idle;
           [done | by apply admitted_failed | by apply served_failed]).
    destruct (String.eqb k sid) eqn:E.
    + apply String.eqb_eq in E. subst k.
      rewrite G in G0. injection G0 as <-.
      apply view_admit with (Py.strip u) b s';
        [apply dict_get_set_eq | done | | done].
      simpl. by rewrite String.eqb_refl.
    + pose proof E as E'. apply String.eqb_neq in E'.
      apply view_idle; [by rewrite dict_get_set_ne | |done].
      simpl. by rewrite E.
  - destruct (mark_served_cases k m) as [N | s0 G0 W | s0 b s' G0 C];
      cbn [fst snd services];
      try (apply view_idle;
           [done | by apply admitted_failed | by apply served_failed]).
    destruct (String.eqb k sid) eqn:E.
    + apply String.eqb_eq in E. subst k.
      rewrite G in G0. injection G0 as <-.
      apply view_serve with b s';
        [apply dict_get_set_eq | done | done |].
      simpl. by rewrite String.eqb_refl.
    + pose proof E as E'. apply String.eqb_neq in E'.
      apply view_idle; [by rewrite dict_get_set_ne | done |].
      simpl. by rewrite E.
Qed.

(** A call cannot touch a service that is not configured. *)
Lemma exec_view_None sid c m :
  Py.dict_get sid (services m) = None ->
  Py.dict_get sid (services (exec c m).2) = None
  /\ admitted sid [(c, (exec c m).1)] = []
  /\ served sid [(c, (exec c m).1)] = [].
Proof.
  intros G. destruct c as [u k | k]; unfold exec.
  - destruct (book_slot_cases u k m) as [N | s0 G0 U | s0 G0 U F | s0 b s' G0 U C];
      cbn [fst snd services];
      try (split; [done|]; split;
           [by apply admitted_failed | by apply served_failed]).
    simpl. destruct (String.eqb k sid) eqn:E.
    + apply String.eqb_eq in E. subst k. congruence.
    + apply String.eqb_neq in E. by rewrite dict_get_set_ne.
  - destruct (mark_served_cases k m) as [N | s0 G0 W | s0 b s' G0 C];
      cbn [fst snd services];
      try (split; [done|]; split;
           [by apply admitted_failed | by apply served_failed]).
    simpl. destruct (String.eqb k sid) eqn:E.
    + apply String.eqb_eq in E. subst k. congruence.
    + apply String.eqb_neq in E. by rewrite dict_get_set_ne.
Qed.

Lemma admitted_cons sid e evs :
  admitted sid (e :: evs) = (admitted sid [e] ++ admitted sid evs)%list.
Proof. change (e :: evs) with ([e] ++ evs)%list. apply omap_app. Qed.

Lemma served_cons sid e evs :
  served sid (e :: evs) = (served sid [e] ++ served sid evs)%list.
Proof. change (e :: evs) with ([e] ++ evs)%list. apply omap_app. Qed.

Lemma run_cons c cs m :
  run (c :: cs) m =
    (((c, (exec c m).1) :: (run cs (exec c m).2).1), (run cs (exec c m).2).2).
Proof.
  simpl. destruct (exec c m) as [r m1]. simpl. by destruct (run cs m1).
Qed.

Lemma run_unknown sid cs m :
  Py.dict_get sid (services m) = None ->
  admitted sid (run cs m).1 = [] /\ served sid (run cs m).1 = []
  /\ Py.dict_get sid (services (run cs m).2) = None.
Proof.
  revert m. induction cs as [|c cs IH]; intros m G; [done|].
  rewrite run_cons. cbn [fst snd].
  destruct (exec_view_None sid c m G) as (G1 & A1 & S1).
  destruct (IH _ G1) as (A & S & G2).
  rewrite admitted_cons, served_cons, A1, S1, A, S. done.
Qed.

(** The waiting line of a service is what was admitted and not yet
    served, in admission order. *)
Lemma run_fifo sid cs m :
  (waiting_of sid m ++ admitted sid (run cs m).1)%list
  = (served sid (run cs m).1 ++ waiting_of sid (run cs m).2)%list.
Proof.
  revert m. induction cs as [|c cs IH]; intros m.
  - simpl. by rewrite app_nil_r.
  - rewrite run_cons. cbn [fst snd]. rewrite admitted_cons, served_cons.
    rewrite app_assoc, <- app_assoc with (l := served sid _).
    rewrite <- IH. rewrite app_assoc. f_equal.
    unfold waiting_of.
    destruct (Py.dict_get sid (services m)) as [s|] eqn:G.
    + destruct (exec_view sid s c m G) as [O A S | u b s' O C A S | b s' O C A S];
        rewrite A, S, O; simpl; rewrite ?app_nil_r.
      * done.
      * apply create_booking_Some in C. by destruct C as (_&_&_&_&_&_&->&_).
      * by apply mark_next_served_Some in C as [-> _].
    + destruct (exec_view_None sid c m G) as (-> & -> & ->). done.
Qed.

(** ** The number format of tokens *)

Section Format.

Lemma length_zeros k : String.length (Py.zeros k) = k.
Proof. induction k; simpl; congruence. Qed.

Lemma length_append (a b : string) :
  String.length (a ++ b) = (String.length a + String.length b)%nat.
Proof.
  induction a as [|c a IH]; [reflexivity|].
  change (S (String.length (a ++ b)) = S (String.length a + String.length b)).
  by rewrite IH.
Qed.

Lemma length_zfill w s :
  String.length (Py.zfill w s) = Nat.max w (String.length s).
Proof. unfold Py.zfill. rewrite length_append, length_zeros. lia. Qed.

Lemma length_string_of_uint d :
  String.length (NilEmpty.string_of_uint d) = nb_digits d.
Proof. induction d; simpl; congruence. Qed.

Lemma all_digits_string_of_uint d :
  all_digits (NilEmpty.string_of_uint d) = true.
Proof. induction d; simpl; auto. Qed.

Lemma to_uint_nonnil n : N.to_uint n <> Nil.
Proof.
  destruct n; simpl; [discriminate|].
  apply DecimalPos.Unsigned.to_uint_nonnil.
Qed.

Lemma digits_NilEmpty n :
  Py.digits n = NilEmpty.string_of_uint (N.to_uint n).
Proof.
  unfold Py.digits, NilZero.string_of_uint.
  pose proof (to_uint_nonnil n). by destruct (N.to_uint n).
Qed.

Lemma all_digits_append a b :
  all_digits (a ++ b) = all_digits a && all_digits b.
Proof.
  induction a as [|c a IH]; [reflexivity|].
  change (is_digit c && all_digits (a ++ b)
          = is_digit c && all_digits a && all_digits b).
  by rewrite IH, andb_assoc.
Qed.

Lemma all_digits_zeros k : all_digits (Py.zeros k) = true.
Proof. induction k; simpl; auto. Qed.

Lemma of_lu_lt d :
  (DecimalPos.Unsigned.of_lu d < 10 ^ N.of_nat (nb_digits d))%N.
Proof.
  induction d; cbn [DecimalPos.Unsigned.of_lu nb_digits];
    rewrite ?Nat2N.inj_succ, ?N.pow_succ_r'; simpl N.of_nat; try lia.
Qed.

Lemma of_uint_lt d : (N.of_uint d < 10 ^ N.of_nat (nb_digits d))%N.
Proof.
  unfold N.of_uint. rewrite DecimalPos.Unsigned.of_uint_alt.
  rewrite <- nb_digits_rev. apply of_lu_lt.
Qed.

Lemma uint_of_string_zeros k s :
  NilEmpty.uint_of_string (Py.zeros k ++ s)
  = Nat.iter k D0 <$> NilEmpty.uint_of_string s.
Proof.
  induction k as [|k IH].
  - change (Py.zeros 0 ++ s) with s. by destruct (NilEmpty.uint_of_string s).
  - change (Py.zeros (S k) ++ s) with (String "0" (Py.zeros k ++ s)).
    cbn [NilEmpty.uint_of_string]. rewrite IH.
    by destruct (NilEmpty.uint_of_string s).
Qed.

Lemma of_uint_iter_D0 k d : N.of_uint (Nat.iter k D0 d) = N.of_uint d.
Proof. induction k; simpl; auto. Qed.

Lemma decimal_value_zfill w n :
  decimal_value (Py.zfill w (Py.digits n)) = Some n.
Proof.
  unfold decimal_value, NilZero.uint_of_string.
  assert (E : NilEmpty.uint_of_string (Py.zfill w (Py.digits n))
              = Some (Nat.iter (w - String.length (Py.digits n)) D0
                        (N.to_uint n))).
  { unfold Py.zfill. rewrite uint_of_string_zeros, digits_NilEmpty.
    by rewrite NilEmpty.usu. }
  destruct (Py.zfill w (Py.digits n)) eqn:Z.
  - exfalso. simpl in E. injection E as E.
    pose proof (to_uint_nonnil n) as H.
    destruct (w - String.length (Py.digits n))%nat; simpl in E;
      [congruence|discriminate].
  - rewrite E. simpl. by rewrite of_uint_iter_D0, DecimalN.Unsigned.of_to.
Qed.

Lemma length_digits_le n k :
  (String.length (Py.digits n) <= k)%nat -> (n < 10 ^ N.of_nat k)%N.
Proof.
  rewrite digits_NilEmpty, length_string_of_uint. intros H.
  rewrite <- (DecimalN.Unsigned.of_to n) at 1.
  eapply N.lt_le_trans; [apply of_uint_lt|].
  apply N.pow_le_mono_r; lia.
Qed.

Lemma format_03d_nonneg n :
  0 <= n -> Py.format_03d n = Py.zfill 3 (Py.digits (Z.to_N n)).
Proof.
  intros H. unfold Py.format_03d. destruct (Z.ltb_spec n 0); [lia|done].
Qed.

Lemma format_03d_small :
  forallb (fun i => Nat.eqb (String.length (Py.format_03d (Z.of_nat i))) 3)
    (seq 0 1000) = true.
Proof. vm_compute. reflexivity. Qed.

(** The number part has at least three characters, and exactly three
    precisely for the numbers up to 999. *)
Lemma length_format_03d n :
  0 <= n ->
  (3 <= String.length (Py.format_03d n))%nat
  /\ (String.length (Py.format_03d n) = 3%nat <-> n <= 999).
Proof.
  intros H. split.
  - rewrite format_03d_nonneg, length_zfill by done. lia.
  - split.
    + rewrite format_03d_nonneg, length_zfill by done. intros L.
      assert (L' : (String.length (Py.digits (Z.to_N n)) <= 3)%nat) by lia.
      apply length_digits_le in L'. simpl in L'. lia.
    + intros L. pose proof format_03d_small as F.
      rewrite forallb_forall in F.
      specialize (F (Z.to_nat n)). rewrite Z2Nat.id in F by done.
      apply Nat.eqb_eq, F, in_seq. lia.
Qed.

(** The number part consists of decimal digits and reads back as the
    number. *)
Lemma format_03d_digits n :
  0 <= n ->
  all_digits (Py.format_03d n) = true
  /\ decimal_value (Py.format_03d n) = Some (Z.to_N n).
Proof.
  intros H. rewrite format_03d_nonneg by done. split.
  - unfold Py.zfill.
    rewrite all_digits_append, all_digits_zeros, digits_NilEmpty.
    apply all_digits_string_of_uint.
  - apply decimal_value_zfill.
Qed.

End Format.

(** ** Tokens and estimates along a trace *)

Lemma init_waiting sid cfgs : waiting_of sid (init cfgs) = [].
Proof.
  unfold waiting_of.
  destruct (Py.dict_get sid (services (init cfgs))) as [s|] eqn:G; [|done].
  apply dict_get_In in G.
  pose proof (init_all (fun _ q => ServiceQueue.waiting q = [])
                (fun _ _ _ _ => eq_refl) cfgs) as H.
  rewrite Forall_forall in H. apply (H (sid, s)). by apply list_elem_of_In.
Qed.

(** From a state in which service [sid] is [s], the [i]-th booking admitted
    later carries the number [next_token_number s + i]. *)
Lemma run_admitted_token sid cs :
  forall m s, Py.dict_get sid (services m) = Some s ->
  forall i b, admitted sid (run cs m).1 !! i = Some b ->
    Booking.token b
    = Py.upper (ServiceQueue.service_id s) ++ "-"
        ++ Py.format_03d (ServiceQueue.next_token_number s + Z.of_nat i)
    /\ Booking.service_id b = ServiceQueue.service_id s.
Proof.
  induction cs as [|c cs IH]; intros m s G i b Hb; [done|].
  rewrite run_cons in Hb. cbn [fst snd] in Hb. rewrite admitted_cons in Hb.
  destruct (exec_view sid s c m G) as [O A S | u b0 s' O C A S | b0 s' O C A S];
    rewrite A in Hb.
  - by apply (IH _ _ O).
  - apply create_booking_Some in C as (_ & Eb & E1 & _ & _ & _ & _ & _ & E7 & _).
    destruct i as [|i]; simpl in Hb.
    + injection Hb as <-. rewrite Eb. simpl. by rewrite Z.add_0_r.
    + destruct (IH _ _ O _ _ Hb) as [T I]. rewrite T, I, E1, E7.
      split; [|done]. do 3 f_equal. lia.
  - apply mark_next_served_Some in C as (_ & E1 & _ & _ & _ & _ & E7 & _).
    destruct (IH _ _ O _ _ Hb) as [T I]. by rewrite T, I, E1, E7.
Qed.

(** While nobody has been admitted to an empty line, the line stays
    empty, so the first admission sees nobody ahead. *)
Lemma run_first_wait sid cs :
  forall m, waiting_of sid m = [] ->
  forall b, admitted sid (run cs m).1 !! 0%nat = Some b ->
    Booking.estimated_wait_minutes_at_booking b = 0.
Proof.
  induction cs as [|c cs IH]; intros m W b Hb; [done|].
  rewrite run_cons in Hb. cbn [fst snd] in Hb. rewrite admitted_cons in Hb.
  unfold waiting_of in W.
  destruct (Py.dict_get sid (services m)) as [s|] eqn:G.
  - destruct (exec_view sid s c m G) as [O A S | u b0 s' O C A S | b0 s' O C A S];
      rewrite A in Hb.
    + apply (IH (exec c m).2); [|done]. unfold waiting_of. by rewrite O.
    + simpl in Hb. injection Hb as <-.
      apply create_booking_Some in C as (_ & -> & _). simpl.
      unfold ServiceQueue.estimate_wait_minutes. by rewrite W.
    + apply mark_next_served_Some in C as (C & _). congruence.
  - destruct (exec_view_None sid c m G) as (G1 & A1 & _).
    rewrite A1 in Hb. apply (IH (exec c m).2); [|done].
    unfold waiting_of. by rewrite G1.
Qed.

(** ** The specified properties *)

(** C1. In every state reachable from construction by [book_slot] and
    [mark_served] calls, every configured service has
    [total_bookings_created = served_count + len(waiting)]. *)
Theorem total_is_served_plus_waiting cfgs cs sid s :
  In (sid, s) (services (state_after cfgs cs)) ->
  ServiceQueue.total_bookings_created s
  = ServiceQueue.served_count s + ServiceQueue.people_waiting s.
Proof. intros H. by destruct (reachable_sq_inv _ _ _ _ H). Qed.

Lemma total_is_served_plus_waiting_witness :
  In ("doctor", doctor_busy) (services (state_after doctor_cfgs doctor_calls))
  /\ ServiceQueue.total_bookings_created doctor_busy
     = ServiceQueue.served_count doctor_busy
       + ServiceQueue.people_waiting doctor_busy.
Proof.
  assert (H : In ("doctor", doctor_busy)
                (services (state_after doctor_cfgs doctor_calls))).
  { vm_compute. right. left. reflexivity. }
  split; [exact H|].
  exact (total_is_served_plus_waiting doctor_cfgs doctor_calls
           "doctor" doctor_busy H).
Defined.

(** A service that is full stays full, whatever is called next. *)
Lemma full_stays_full sid cs :
  forall m s, Py.dict_get sid (services m) = Some s ->
  ServiceQueue.is_full s = true ->
  exists s', Py.dict_get sid (services (run cs m).2) = Some s'
    /\ ServiceQueue.is_full s' = true
    /\ ServiceQueue.total_bookings_created s'
       = ServiceQueue.total_bookings_created s
    /\ ServiceQueue.display_name s' = ServiceQueue.display_name s.
Proof.
  induction cs as [|c cs IH]; intros m s G F.
  - exists s. done.
  - rewrite run_cons. cbn [fst snd].
    destruct (exec_view sid s c m G) as [O A S | u b0 s' O C A S | b0 s' O C A S].
    + by apply IH.
    + apply create_booking_Some in C as (F' & _). congruence.
    + apply mark_next_served_Some in C as (_ & _ & E2 & E3 & _ & E6 & _).
      assert (F' : ServiceQueue.is_full s' = true).
      { unfold ServiceQueue.is_full in *. by rewrite E3, E6. }
      destruct (IH _ _ O F') as (s'' & G'' & F'' & T'' & D'').
      exists s''. repeat split; congruence.
Qed.

(** C2. [is_full] is true exactly when
    [total_bookings_created >= daily_capacity]; once the total of a service
    equals its capacity, every later [book_slot] for it fails and leaves
    the whole manager as it was, whatever calls come in between (for an
    ASCII name that is not blank the failure is the capacity one); and in
    every reachable state the total of a service of non-negative capacity
    is at most that capacity. *)
Theorem capacity_gate :
  (forall s,
     ServiceQueue.is_full s = true
     <-> ServiceQueue.total_bookings_created s >= ServiceQueue.daily_capacity s)
  /\ (forall m sid s cs u,
        Py.dict_get sid (services m) = Some s ->
        ServiceQueue.total_bookings_created s = ServiceQueue.daily_capacity s ->
        let m' := (run cs m).2 in
        ok (book_slot u sid m').1 = false
        /\ booking (book_slot u sid m').1 = None
        /\ (book_slot u sid m').2 = m'
        /\ (is_ascii u = true ->
            Py.strip u <> "" ->
            message (book_slot u sid m').1
            = "Service '" ++ ServiceQueue.display_name s
                ++ "' is at full daily capacity.")
        /\ (forall s', Py.dict_get sid (services m') = Some s' ->
            ServiceQueue.total_bookings_created s'
            = ServiceQueue.daily_capacity s))
  /\ (forall cfgs cs sid s,
        In (sid, s) (services (state_after cfgs cs)) ->
        0 <= ServiceQueue.daily_capacity s ->
        ServiceQueue.total_bookings_created s <= ServiceQueue.daily_capacity s).
Proof.
  split; [|split].
  - intros s. unfold ServiceQueue.is_full. rewrite Z.geb_leb, Z.leb_le. lia.
  - intros m sid s cs u G T m'.
    assert (F : ServiceQueue.is_full s = true).
    { unfold ServiceQueue.is_full. rewrite Z.geb_leb, Z.leb_le. lia. }
    destruct (full_stays_full sid cs m s G F) as (s' & G' & F' & T' & D').
    fold m' in G'.
    destruct (book_slot_cases u sid m') as [N | s0 G0 U | s0 G0 U F0 | s0 b s1 G0 U C];
      cbn [fst snd ok message booking].
    + congruence.
    + repeat split; try done. intros s1 G1. congruence.
    + repeat split; try done; [congruence|]. intros s1 G1. congruence.
    + apply create_booking_Some in C as (F0 & _). congruence.
  - intros cfgs cs sid s H. by destruct (reachable_sq_inv _ _ _ _ H).
Qed.

Lemma capacity_gate_witness :
  let m := state_after doctor_cfgs [Book "Asha" "doctor"; Book "Ben" "doctor"] in
  let m' := (run [Serve "doctor"; Serve "doctor"] m).2 in
  (Py.dict_get "doctor" (services m) = Some doctor_full
   /\ ServiceQueue.total_bookings_created doctor_full
      = ServiceQueue.daily_capacity doctor_full
   /\ waiting_of "doctor" m' = []
   /\ ok (book_slot "Cara" "doctor" m').1 = false
   /\ (book_slot "Cara" "doctor" m').2 = m'
   /\ is_ascii "Cara" = true
   /\ Py.strip "Cara" <> ""
   /\ message (book_slot "Cara" "doctor" m').1
      = "Service 'Doctor Consultation' is at full daily capacity.")
  /\ (In ("doctor", doctor_busy)
        (services (state_after doctor_cfgs doctor_calls))
      /\ 0 <= ServiceQueue.daily_capacity doctor_busy
      /\ ServiceQueue.total_bookings_created doctor_busy
         <= ServiceQueue.daily_capacity doctor_busy).
Proof.
  intros m m'.
  destruct capacity_gate as (_ & Gate & Bound).
  assert (G : Py.dict_get "doctor" (services m) = Some doctor_full)
    by (vm_compute; reflexivity).
  assert (T : ServiceQueue.total_bookings_created doctor_full
              = ServiceQueue.daily_capacity doctor_full) by reflexivity.
  assert (H : In ("doctor", doctor_busy)
                (services (state_after doctor_cfgs doctor_calls))).
  { vm_compute. right. left. reflexivity. }
  assert (C : 0 <= ServiceQueue.daily_capacity doctor_busy)
    by (simpl; lia).
  assert (A : is_ascii "Cara" = true) by reflexivity.
  assert (U : Py.strip "Cara" <> "") by discriminate.
  destruct (Gate m "doctor" doctor_full [Serve "doctor"; Serve "doctor"]
              "Cara" G T) as (K1 & _ & K3 & K4 & _).
  split.
  - split; [exact G|]. split; [exact T|]. split; [vm_compute; reflexivity|].
    split; [exact K1|]. split; [exact K3|]. split; [exact A|].
    split; [exact U | exact (K4 A U)].
  - split; [exact H|]. split; [exact C|].
    exact (Bound doctor_cfgs doctor_calls "doctor" doctor_busy H C).
Defined.

(** C3. Bookings of a service are served in the order of admission: what
    has been admitted is what has been served followed by what is still
    waiting, so the [N]-th booking returned by a successful [mark_served]
    is the [N]-th booking admitted. *)
Theorem fifo_order cfgs cs sid (N : nat) b :
  served sid (trace_of cfgs cs) !! N = Some b ->
  admitted sid (trace_of cfgs cs) !! N = Some b
  /\ admitted sid (trace_of cfgs cs)
     = (served sid (trace_of cfgs cs)
        ++ waiting_of sid (state_after cfgs cs))%list.
Proof.
  intros H. pose proof (run_fifo sid cs (init cfgs)) as F.
  rewrite init_waiting in F. simpl in F.
  unfold trace_of, state_after. rewrite F. split; [|done].
  by apply lookup_app_l_Some.
Qed.

Lemma fifo_order_witness :
  served "doctor" (trace_of doctor_cfgs doctor_calls) !! 0%nat = Some asha
  /\ admitted "doctor" (trace_of doctor_cfgs doctor_calls) !! 0%nat = Some asha
  /\ admitted "doctor" (trace_of doctor_cfgs doctor_calls) = [asha; ben]
  /\ served "doctor" (trace_of doctor_cfgs doctor_calls) = [asha].
Proof.
  assert (H : served "doctor" (trace_of doctor_cfgs doctor_calls) !! 0%nat
              = Some asha) by (vm_compute; reflexivity).
  split; [exact H|].
  split; [exact (proj1 (fifo_order doctor_cfgs doctor_calls "doctor" 0 asha H))|].
  split; vm_compute; reflexivity.
Defined.

(** C5. The estimate stored in a booking is the number of bookings
    waiting in the service when [book_slot] was called (the new booking
    goes behind them) times the service's [avg_service_minutes]; the first
    booking ever admitted to a service has estimate 0. *)
Theorem wait_estimate :
  (forall m u sid s b,
     Py.dict_get sid (services m) = Some s ->
     booking (book_slot u sid m).1 = Some b ->
     Booking.estimated_wait_minutes_at_booking b
     = Z.of_nat (length (ServiceQueue.waiting s))
       * ServiceQueue.avg_service_minutes s
     /\ waiting_of sid (book_slot u sid m).2
        = (ServiceQueue.waiting s ++ [b])%list)
  /\ (forall cfgs cs sid b,
        admitted sid (trace_of cfgs cs) !! 0%nat = Some b ->
        Booking.estimated_wait_minutes_at_booking b = 0).
Proof.
  split.
  - intros m u sid s b G B.
    destruct (book_slot_cases u sid m) as [N | s0 G0 U | s0 G0 U F0 | s0 b0 s1 G0 U C];
      cbn [fst snd booking] in *; try discriminate.
    injection B as ->. rewrite G in G0. injection G0 as <-.
    apply create_booking_Some in C as (_ & Eb & _ & _ & _ & _ & W & _).
    split; [by rewrite Eb|].
    unfold waiting_of. cbn [services]. by rewrite dict_get_set_eq.
  - intros cfgs cs sid b H.
    apply (run_first_wait sid cs (init cfgs)); [apply init_waiting | exact H].
Qed.

Lemma wait_estimate_witness :
  let m := state_after doctor_cfgs [Book "Asha" "doctor"] in
  (ServiceQueue.waiting
     <$> Py.dict_get "doctor" (services m) = Some [asha]
   /\ booking (book_slot "Ben" "doctor" m).1 = Some ben
   /\ Booking.estimated_wait_minutes_at_booking ben = 1 * 10)
  /\ (admitted "doctor" (trace_of doctor_cfgs doctor_calls) !! 0%nat
      = Some asha
      /\ Booking.estimated_wait_minutes_at_booking asha = 0).
Proof.
  intros m. destruct wait_estimate as [Each First].
  destruct (Py.dict_get "doctor" (services m)) as [s|] eqn:G;
    [|vm_compute in G; discriminate].
  assert (W : ServiceQueue.waiting s = [asha]).
  { vm_compute in G. injection G as <-. reflexivity. }
  assert (A : ServiceQueue.avg_service_minutes s = 10).
  { vm_compute in G. injection G as <-. reflexivity. }
  assert (B : booking (book_slot "Ben" "doctor" m).1 = Some ben)
    by (vm_compute; reflexivity).
  assert (H : admitted "doctor" (trace_of doctor_cfgs doctor_calls) !! 0%nat
              = Some asha) by (vm_compute; reflexivity).
  split.
  - split; [simpl; by rewrite W|]. split; [exact B|].
    destruct (Each m "Ben" "doctor" s ben G B) as [E _].
    rewrite E, W, A. reflexivity.
  - split; [exact H|].
    exact (First doctor_cfgs doctor_calls "doctor" asha H).
Defined.

(** ** History *)

Lemma exec_history c m :
  length (history (exec c m).2)
  = (length (history m) + if ok (exec c m).1 then 1 else 0)%nat.
Proof.
  destruct c as [u sid | sid]; unfold exec.
  - destruct (book_slot_cases u sid m); cbn [fst snd ok history];
      rewrite ?length_app; simpl; lia.
  - destruct (mark_served_cases sid m); cbn [fst snd ok history];
      rewrite ?length_app; simpl; lia.
Qed.

Lemma successes_cons e evs :
  successes (e :: evs) = ((if ok e.2 then 1 else 0) + successes evs)%nat.
Proof.
  unfold successes. rewrite filter_cons.
  destruct (decide (ok e.2 = true)) as [E | E].
  - by rewrite E.
  - by destruct (ok e.2).
Qed.

Lemma run_history cs :
  forall m,
    length (history (run cs m).2)
    = (length (history m) + successes (run cs m).1)%nat.
Proof.
  induction cs as [|c cs IH]; intros m.
  - simpl. unfold successes. simpl. lia.
  - rewrite run_cons. cbn [fst snd]. rewrite IH, exec_history, successes_cons.
    cbn [snd]. lia.
Qed.

(** C6. The history holds exactly one snapshot after construction; a
    call adds exactly one snapshot when it succeeds and none when it
    fails; so after any sequence of calls the history has one entry more
    than there were successful calls. *)
Theorem history_length :
  (forall cfgs, length (history (init cfgs)) = 1%nat)
  /\ (forall c m,
        length (history (exec c m).2)
        = (length (history m) + if ok (exec c m).1 then 1 else 0)%nat)
  /\ (forall cfgs cs,
        length (history (state_after cfgs cs))
        = (1 + successes (trace_of cfgs cs))%nat).
Proof.
  split; [done|]. split; [apply exec_history|].
  intros cfgs cs. unfold state_after, trace_of. by rewrite run_history.
Qed.

(** ** Failures *)

Lemma all_space_lstrip u : all_space (Py.lstrip u) = all_space u.
Proof.
  induction u as [|c r IH]; [done|]. simpl.
  destruct (Py.isspace c) eqn:E; simpl; [done|]. by rewrite E.
Qed.

Lemma rstrip_empty t : Py.rstrip t = "" <-> all_space t = true.
Proof.
  induction t as [|c r IH]; [done|]. simpl.
  destruct (Py.rstrip r) eqn:R.
  - destruct IH as [IH _]. rewrite IH by done. rewrite andb_true_r.
    by destruct (Py.isspace c).
  - split; [discriminate|]. intros H. apply andb_true_iff in H as [_ H].
    apply IH in H. discriminate.
Qed.

(** [strip] leaves nothing exactly when the string is white space only. *)
Lemma strip_empty u : Py.strip u = "" <-> all_space u = true.
Proof. unfold Py.strip. by rewrite rstrip_empty, all_space_lstrip. Qed.

(** C7. A failed [book_slot] or [mark_served] returns [False], a message
    and no booking, and the manager after the call is the manager before
    it: services, waiting lines, booking index and history alike.  The
    failures are: unknown service id, user name empty or white space only,
    service at full capacity, and empty waiting line; each comes with its
    own message.  Which of the two name-dependent failures occurs is
    stated for ASCII names. *)
Theorem failed_call_changes_nothing :
  (forall c m,
     ok (exec c m).1 = false ->
     booking (exec c m).1 = None
     /\ message (exec c m).1 <> ""
     /\ (exec c m).2 = m)
  /\ (forall u sid m,
        Py.dict_get sid (services m) = None ->
        book_slot u sid m
        = ((false, "Invalid service id: '" ++ sid ++ "'.", None), m))
  /\ (forall u sid m s,
        Py.dict_get sid (services m) = Some s ->
        is_ascii u = true ->
        all_space u = true ->
        book_slot u sid m = ((false, "User name cannot be empty.", None), m))
  /\ (forall u sid m s,
        Py.dict_get sid (services m) = Some s ->
        is_ascii u = true ->
        all_space u = false ->
        ServiceQueue.is_full s = true ->
        book_slot u sid m
        = ((false,
            "Service '" ++ ServiceQueue.display_name s
              ++ "' is at full daily capacity.", None), m))
  /\ (forall sid m,
        Py.dict_get sid (services m) = None ->
        mark_served sid m
        = ((false, "Invalid service id: '" ++ sid ++ "'.", None), m))
  /\ (forall sid m s,
        Py.dict_get sid (services m) = Some s ->
        ServiceQueue.waiting s = [] ->
        mark_served sid m
        = ((false,
            "Queue is empty for service '" ++ ServiceQueue.display_name s
              ++ "'.", None), m)).
Proof.
  repeat split.
  - destruct c as [u sid | sid]; unfold exec in *.
    + by destruct (book_slot_cases u sid m).
    + by destruct (mark_served_cases sid m).
  - destruct c as [u sid | sid]; unfold exec in *.
    + by destruct (book_slot_cases u sid m).
    + by destruct (mark_served_cases sid m).
  - destruct c as [u sid | sid]; unfold exec in *.
    + by destruct (book_slot_cases u sid m).
    + by destruct (mark_served_cases sid m).
  - intros u sid m G.
    destruct (book_slot_cases u sid m); congruence.
  - intros u sid m s G _ U. apply strip_empty in U.
    destruct (book_slot_cases u sid m); congruence.
  - intros u sid m s G _ U F.
    assert (U' : Py.strip u <> "").
    { intros E. apply strip_empty in E. congruence. }
    destruct (book_slot_cases u sid m) as [N | s0 G0 U0 | s0 G0 U0 F0 | s0 b s1 G0 U0 C];
      try congruence.
    apply create_booking_Some in C as (F0 & _). congruence.
  - intros sid m G.
    destruct (mark_served_cases sid m); congruence.
  - intros sid m s G W.
    destruct (mark_served_cases sid m) as [N | s0 G0 W0 | s0 b s1 G0 C];
      try congruence.
    apply mark_next_served_Some in C as (C & _). congruence.
Qed.

Lemma failed_call_changes_nothing_witness :
  let m := state_after doctor_cfgs [Book "Asha" "doctor"; Book "Ben" "doctor"] in
  (ok (exec (Serve "cashier") m).1 = false
   /\ booking (exec (Serve "cashier") m).1 = None
   /\ (exec (Serve "cashier") m).2 = m)
  /\ (Py.dict_get "unknown" (services m) = None
      /\ book_slot "Deep" "unknown" m
         = ((false, "Invalid service id: 'unknown'.", None), m))
  /\ (Py.dict_get "cashier" (services m) = Some cashier_idle
      /\ is_ascii "  " = true
      /\ all_space "  " = true
      /\ book_slot "  " "cashier" m
         = ((false, "User name cannot be empty.", None), m))
  /\ (Py.dict_get "doctor" (services m) = Some doctor_full
      /\ is_ascii "Cara" = true
      /\ all_space "Cara" = false
      /\ ServiceQueue.is_full doctor_full = true
      /\ book_slot "Cara" "doctor" m
         = ((false, "Service 'Doctor Consultation' is at full daily capacity.",
             None), m))
  /\ (mark_served "unknown" m
      = ((false, "Invalid service id: 'unknown'.", None), m))
  /\ (ServiceQueue.waiting cashier_idle = []
      /\ mark_served "cashier" m
         = ((false, "Queue is empty for service 'Cashier'.", None), m)).
Proof.
  intros m.
  destruct failed_call_changes_nothing as (Any & B1 & B2 & B3 & S1 & S2).
  assert (F : ok (exec (Serve "cashier") m).1 = false)
    by (vm_compute; reflexivity).
  assert (GU : Py.dict_get "unknown" (services m) = None)
    by (vm_compute; reflexivity).
  assert (GC : Py.dict_get "cashier" (services m) = Some cashier_idle)
    by (vm_compute; reflexivity).
  assert (GD : Py.dict_get "doctor" (services m) = Some doctor_full)
    by (vm_compute; reflexivity).
  assert (W : all_space "  " = true) by reflexivity.
  assert (NW : all_space "Cara" = false) by reflexivity.
  assert (Full : ServiceQueue.is_full doctor_full = true) by reflexivity.
  assert (E : ServiceQueue.waiting cashier_idle = []) by reflexivity.
  destruct (Any (Serve "cashier") m F) as (A1 & _ & A3).
  split; [split; [exact F | split; [exact A1 | exact A3]]|].
  split; [split; [exact GU | exact (B1 "Deep" "unknown" m GU)]|].
  split; [split; [exact GC | split; [reflexivity | split; [exact W|]]];
          exact (B2 "  " "cashier" m cashier_idle GC eq_refl W)|].
  split; [split; [exact GD | split; [reflexivity | split;
                   [exact NW | split; [exact Full|]]]];
          exact (B3 "Cara" "doctor" m doctor_full GD eq_refl NW Full)|].
  split; [exact (S1 "unknown" m GU)|].
  split; [exact E | exact (S2 "cashier" m cashier_idle GC E)].
Defined.

(** ** Status *)

Lemma init_services_fresh cfgs sid s :
  In (sid, s) (services (init cfgs)) ->
  ServiceQueue.waiting s = []
  /\ ServiceQueue.served_count s = 0
  /\ ServiceQueue.total_bookings_created s = 0.
Proof.
  intros H.
  pose proof (init_all
    (fun _ q => ServiceQueue.waiting q = []
                /\ ServiceQueue.served_count q = 0
                /\ ServiceQueue.total_bookings_created q = 0)
    (fun _ _ _ _ => conj eq_refl (conj eq_refl eq_refl)) cfgs) as A.
  rewrite Forall_forall in A. apply (A (sid, s)). by apply list_elem_of_In.
Qed.

(** C8. [queue_status] leaves the manager as it was and returns one row
    per configured service, in the order of [list_services], whose six
    fields are the service's current values; on a fresh manager every row
    shows nobody waiting, nobody served, nothing booked and no wait. *)
Theorem queue_status_read_only :
  (forall m, (queue_status m).2 = m)
  /\ (forall m,
        length (queue_status m).1 = length (list_services m))
  /\ (forall m (i : nat) s,
        list_services m !! i = Some s ->
        (queue_status m).1 !! i
        = Some {| row_waiting := Z.of_nat (length (ServiceQueue.waiting s));
                  row_served := ServiceQueue.served_count s;
                  row_booked_total := ServiceQueue.total_bookings_created s;
                  row_capacity := ServiceQueue.daily_capacity s;
                  row_avg_service_minutes :=
                    ServiceQueue.avg_service_minutes s;
                  row_est_wait_new_user :=
                    Z.of_nat (length (ServiceQueue.waiting s))
                    * ServiceQueue.avg_service_minutes s |})
  /\ (forall cfgs row,
        In row (queue_status (init cfgs)).1 ->
        row_waiting row = 0 /\ row_served row = 0
        /\ row_booked_total row = 0 /\ row_est_wait_new_user row = 0).
Proof.
  split; [done|]. split; [intros m; apply length_map|]. split.
  - intros m i s H. unfold queue_status. cbn [fst].
    rewrite list_lookup_fmap. unfold list_services in H. by rewrite H.
  - intros cfgs row H. unfold queue_status in H. cbn [fst] in H.
    apply in_map_iff in H as (s & <- & Hs).
    unfold Py.dict_values in Hs. apply in_map_iff in Hs as ([sid s'] & <- & Hs).
    apply init_services_fresh in Hs as (W & S & T). simpl.
    unfold ServiceQueue.people_waiting, ServiceQueue.estimate_wait_minutes.
    rewrite W, S, T. done.
Qed.

Lemma queue_status_read_only_witness :
  let m := state_after doctor_cfgs doctor_calls in
  (list_services m !! 1%nat = Some doctor_busy
   /\ (queue_status m).1 !! 1%nat
      = Some {| row_waiting := 1; row_served := 1; row_booked_total := 2;
                row_capacity := 2; row_avg_service_minutes := 10;
                row_est_wait_new_user := 10 |})
  /\ (let row := {| row_waiting := 0; row_served := 0; row_booked_total := 0;
                    row_capacity := 5; row_avg_service_minutes := 4;
                    row_est_wait_new_user := 0 |} in
      In row (queue_status (init [("cashier", "Cashier", 5, 4)])).1
      /\ row_waiting row = 0 /\ row_served row = 0
      /\ row_booked_total row = 0 /\ row_est_wait_new_user row = 0).
Proof.
  intros m. destruct queue_status_read_only as (_ & _ & Rows & Fresh).
  assert (H : list_services m !! 1%nat = Some doctor_busy)
    by (vm_compute; reflexivity).
  split.
  - split; [exact H|]. exact (Rows m 1%nat doctor_busy H).
  - intros row.
    assert (I : In row (queue_status (init [("cashier", "Cashier", 5, 4)])).1).
    { vm_compute. left. reflexivity. }
    split; [exact I|].
    exact (Fresh [("cashier", "Cashier", 5, 4)] row I).
Defined.

(** ** Tokens *)

Lemma init_service cfgs sid s :
  In (sid, s) (services (init cfgs)) ->
  exists dn cap avg, s = ServiceQueue.init sid dn cap avg.
Proof.
  intros H.
  pose proof (init_all
    (fun k q => exists dn cap avg, q = ServiceQueue.init k dn cap avg)
    (fun k dn cap avg => ex_intro _ dn (ex_intro _ cap (ex_intro _ avg eq_refl)))
    cfgs) as A.
  rewrite Forall_forall in A. apply (A (sid, s)). by apply list_elem_of_In.
Qed.

(** Counting from one, the [k]-th booking admitted to a service of a
    fresh manager carries the number [k]. *)
Lemma admitted_token cfgs cs sid (i : nat) b :
  admitted sid (trace_of cfgs cs) !! i = Some b ->
  Booking.token b
  = Py.upper sid ++ "-" ++ Py.format_03d (Z.of_nat (S i)).
Proof.
  intros H. unfold trace_of in H.
  destruct (Py.dict_get sid (services (init cfgs))) as [s|] eqn:G.
  - destruct (run_admitted_token sid cs _ _ G _ _ H) as [T _].
    apply dict_get_In, init_service in G as (dn & cap & avg & ->).
    rewrite T. simpl. do 3 f_equal. lia.
  - destruct (run_unknown sid cs _ G) as (A & _). by rewrite A in H.
Qed.

Lemma append_inj_l (p a b : string) : p ++ a = p ++ b -> a = b.
Proof.
  induction p as [|c p IH]; [done|].
  change (String c (p ++ a) = String c (p ++ b) -> a = b).
  intros [= E]. auto.
Qed.

Lemma after_last_hyphen_digits d :
  all_digits d = true -> after_last_hyphen d = None.
Proof.
  induction d as [|c d IH]; [done|]. simpl. intros H.
  apply andb_true_iff in H as [D H]. rewrite (IH H).
  destruct (Ascii.eqb c "-") eqn:E; [|done].
  apply Ascii.eqb_eq in E. subst c. discriminate D.
Qed.

(** The number part of a token is what follows its last hyphen, whatever
    hyphens the part before it has. *)
Lemma after_last_hyphen_token p d :
  all_digits d = true -> after_last_hyphen (p ++ "-" ++ d) = Some d.
Proof.
  intros D. induction p as [|c p IH].
  - change ("" ++ "-" ++ d) with (String "-" d). simpl.
    by rewrite (after_last_hyphen_digits d D).
  - change (String c p ++ "-" ++ d) with (String c (p ++ "-" ++ d)).
    simpl. by rewrite IH.
Qed.

Lemma token_number_format p n :
  0 <= n -> token_number (p ++ "-" ++ Py.format_03d n) = Some (Z.to_N n).
Proof.
  intros H. destruct (format_03d_digits n H) as [D V].
  unfold token_number. by rewrite (after_last_hyphen_token p _ D).
Qed.

(** C10. In every reachable state a service has
    [next_token_number = total_bookings_created + 1]; consequently the
    [k]-th booking admitted to a service, counting from one, carries the
    sequence number [k] in its token: what follows the last hyphen of the
    token is [k] in the [03d] format.  For an ASCII service id the whole
    token is given as well. *)
Theorem next_token_follows_total :
  (forall cfgs cs sid s,
     In (sid, s) (services (state_after cfgs cs)) ->
     ServiceQueue.next_token_number s
     = ServiceQueue.total_bookings_created s + 1)
  /\ (forall cfgs cs sid (k : nat) b,
        (1 <= k)%nat ->
        admitted sid (trace_of cfgs cs) !! (k - 1)%nat = Some b ->
        token_number (Booking.token b) = Some (N.of_nat k)
        /\ after_last_hyphen (Booking.token b)
           = Some (Py.format_03d (Z.of_nat k))
        /\ (is_ascii sid = true ->
            Booking.token b
            = Py.upper sid ++ "-" ++ Py.format_03d (Z.of_nat k))).
Proof.
  split.
  - intros cfgs cs sid s H. by destruct (reachable_sq_inv _ _ _ _ H).
  - intros cfgs cs sid k b K H. apply admitted_token in H.
    replace (S (k - 1)) with k in H by lia.
    destruct (format_03d_digits (Z.of_nat k)) as [D _]; [lia|].
    split; [|split; [|done]].
    + rewrite H, token_number_format by lia. f_equal. lia.
    + rewrite H. by apply after_last_hyphen_token.
Qed.

Lemma next_token_follows_total_witness :
  (In ("doctor", doctor_busy) (services (state_after doctor_cfgs doctor_calls))
   /\ ServiceQueue.next_token_number doctor_busy
      = ServiceQueue.total_bookings_created doctor_busy + 1)
  /\ ((1 <= 2)%nat
      /\ admitted "doctor" (trace_of doctor_cfgs doctor_calls) !! (2 - 1)%nat
         = Some ben
      /\ token_number (Booking.token ben) = Some 2%N
      /\ after_last_hyphen (Booking.token ben) = Some "002"
      /\ is_ascii "doctor" = true
      /\ Booking.token ben = "DOCTOR-002").
Proof.
  destruct next_token_follows_total as [Inv Kth].
  assert (H : In ("doctor", doctor_busy)
                (services (state_after doctor_cfgs doctor_calls))).
  { vm_compute. right. left. reflexivity. }
  assert (K : (1 <= 2)%nat) by lia.
  assert (A : admitted "doctor" (trace_of doctor_cfgs doctor_calls)
                !! (2 - 1)%nat = Some ben) by (vm_compute; reflexivity).
  split.
  - split; [exact H|].
    exact (Inv doctor_cfgs doctor_calls "doctor" doctor_busy H).
  - split; [exact K|]. split; [exact A|].
    destruct (Kth doctor_cfgs doctor_calls "doctor" 2%nat ben K A)
      as (N & P & T).
    split; [exact N|]. split; [exact P|]. split; [reflexivity|].
    exact (T eq_refl).
Defined.

(** C4, as stated, fails: with a capacity of 1000 the thousandth token is
    [D-1000], whose number has four digits, not three. *)
Lemma thousandth_token_has_four_digits :
  admitted "d" (trace_of depot_cfgs depot_calls) !! 999%nat = Some depot_1000
  /\ ~ three_digit_token "d" 1000 (Booking.token depot_1000).
Proof.
  split; [vm_compute; reflexivity|].
  intros (num & E & L & _). cbv in E. injection E as <-. discriminate L.
Qed.

(** C4, amended. The token of the booking admitted in position [i + 1]
    of a service is the service id in upper case, a hyphen, and the number
    [i + 1] in decimal digits, padded with zeros on the left to at least
    three characters: exactly three up to 999, more from 1000 on.  The
    numbers therefore start at 001 and go up by one per admission, with no
    gap and no reuse, whatever serve calls come in between.  The whole
    token is stated for an ASCII service id; its number part, which is
    what follows the last hyphen, is stated for every id. *)
Theorem token_format cfgs cs sid (i : nat) b :
  admitted sid (trace_of cfgs cs) !! i = Some b ->
  let num := Py.format_03d (Z.of_nat i + 1) in
  (is_ascii sid = true -> Booking.token b = Py.upper sid ++ "-" ++ num)
  /\ after_last_hyphen (Booking.token b) = Some num
  /\ all_digits num = true
  /\ decimal_value num = Some (N.of_nat i + 1)%N
  /\ (3 <= String.length num)%nat
  /\ (String.length num = 3%nat <-> (i + 1 <= 999)%nat)
  /\ (forall (j : nat) b',
        admitted sid (trace_of cfgs cs) !! j = Some b' ->
        Booking.token b' = Booking.token b -> j = i).
Proof.
  intros H num. pose proof (admitted_token _ _ _ _ _ H) as T.
  replace (Z.of_nat (S i)) with (Z.of_nat i + 1) in T by lia. fold num in T.
  destruct (format_03d_digits (Z.of_nat i + 1)) as [D V]; [lia|].
  destruct (length_format_03d (Z.of_nat i + 1)) as [L3 L]; [lia|].
  fold num in D, V, L3, L.
  split; [intros _; exact T|].
  split; [rewrite T; by apply after_last_hyphen_token|]. split; [exact D|].
  split; [rewrite V; f_equal; lia|]. split; [exact L3|].
  split; [rewrite L; lia|].
  intros j b' H' E. pose proof (admitted_token _ _ _ _ _ H') as T'.
  rewrite T, T' in E. apply append_inj_l, append_inj_l in E.
  destruct (format_03d_digits (Z.of_nat (S j))) as [_ V']; [lia|].
  rewrite E, V in V'. injection V' as V'. lia.
Qed.

Lemma token_format_witness :
  admitted "doctor" (trace_of doctor_cfgs doctor_calls) !! 1%nat = Some ben
  /\ is_ascii "doctor" = true
  /\ Booking.token ben = "DOCTOR-002"
  /\ after_last_hyphen (Booking.token ben) = Some "002"
  /\ all_digits "002" = true
  /\ decimal_value "002" = Some 2%N
  /\ (3 <= String.length "002")%nat.
Proof.
  assert (A : admitted "doctor" (trace_of doctor_cfgs doctor_calls) !! 1%nat
              = Some ben) by (vm_compute; reflexivity).
  split; [exact A|].
  destruct (token_format doctor_cfgs doctor_calls "doctor" 1%nat ben A)
    as (T & P & D & V & L & _).
  split; [reflexivity|]. split; [exact (T eq_refl)|]. split; [exact P|].
  split; [exact D|]. split; [exact V | exact L].
Defined.

(** ** Booking index *)

(** A successful [book_slot] files the booking under its token. *)
Lemma book_slot_indexes u sid m b :
  booking (book_slot u sid m).1 = Some b ->
  booking_index (book_slot u sid m).2 !! Booking.token b = Some b.
Proof.
  destruct (book_slot_cases u sid m); cbn [fst snd booking]; try discriminate.
  intros [= ->]. cbn [booking_index]. apply lookup_insert_eq.
Qed.

(** [mark_served] never touches the index. *)
Lemma mark_served_keeps_index sid m :
  booking_index (mark_served sid m).2 = booking_index m.
Proof. by destruct (mark_served_cases sid m). Qed.

(** No call removes a token from the index. *)
Lemma booking_index_keys_kept c m tok :
  is_Some (booking_index m !! tok) ->
  is_Some (booking_index (exec c m).2 !! tok).
Proof.
  intros H. destruct c as [u sid | sid]; unfold exec.
  - destruct (book_slot_cases u sid m) as [| | |s b s' G U C];
      cbn [snd booking_index]; try done.
    destruct (decide (Booking.token b = tok)) as [<- | Hne].
    + rewrite lookup_insert_eq. by eexists.
    + by rewrite lookup_insert_ne.
  - by rewrite mark_served_keeps_index.
Qed.

(** A call leaves an index entry alone unless it is a successful booking
    that issues the very same token. *)
Lemma booking_index_entry_kept c m tok b :
  booking_index m !! tok = Some b ->
  booking_index (exec c m).2 !! tok = Some b
  \/ exists b', booking (exec c m).1 = Some b' /\ Booking.token b' = tok.
Proof.
  intros H. destruct c as [u sid | sid]; unfold exec.
  - destruct (book_slot_cases u sid m) as [| | |s b0 s' G U C];
      cbn [fst snd booking booking_index]; auto.
    destruct (decide (Booking.token b0 = tok)) as [E | Hne].
    + right. by exists b0.
    + left. by rewrite lookup_insert_ne.
  - left. by rewrite mark_served_keeps_index.
Qed.

(** C9 fails on the code. Two services whose ids differ only by case issue
    the same tokens; the second booking then replaces the first one in
    the index, and the first booking is no longer filed under any token. *)
Theorem booking_index_entry_replaced :
  map (fun e => booking e.2) (trace_of twin_cfgs twin_calls)
  = [Some asha; Some ben_annex]
  /\ booking_index (state_after twin_cfgs [Book "Asha" "doctor"])
       !! "DOCTOR-001" = Some asha
  /\ booking_index (state_after twin_cfgs twin_calls) !! "DOCTOR-001"
     = Some ben_annex
  /\ forall tok,
       booking_index (state_after twin_cfgs twin_calls) !! tok <> Some asha.
Proof.
  split; [vm_compute; reflexivity|].
  split; [vm_compute; reflexivity|].
  split; [vm_compute; reflexivity|].
  intros tok.
  assert (E : booking_index (state_after twin_cfgs twin_calls)
              = {["DOCTOR-001" := ben_annex]}) by (vm_compute; reflexivity).
  rewrite E. destruct (decide (tok = "DOCTOR-001")) as [-> | Hne].
  - rewrite lookup_singleton_eq. discriminate.
  - rewrite lookup_singleton_ne by done. discriminate.
Qed.

(** ** What does hold of the booking index *)

Lemma all_digits_no_hyphen p d : all_digits (p ++ "-" ++ d) = false.
Proof.
  rewrite all_digits_append. change ("-" ++ d) with (String "-" d).
  cbn [all_digits]. apply andb_false_r.
Qed.

(** The hyphen that separates the number is the last one of the token. *)
Lemma token_split p1 : forall p2 d1 d2,
  all_digits d1 = true -> all_digits d2 = true ->
  p1 ++ "-" ++ d1 = p2 ++ "-" ++ d2 -> p1 = p2 /\ d1 = d2.
Proof.
  induction p1 as [|c p1 IH]; intros [|c' p2] d1 d2 D1 D2 E.
  - by injection E.
  - exfalso. change (String "-" d1 = String c' (p2 ++ "-" ++ d2)) in E.
    injection E as _ E. rewrite E, all_digits_no_hyphen in D1. discriminate.
  - exfalso. change (String c (p1 ++ "-" ++ d1) = String "-" d2) in E.
    injection E as _ E. rewrite <- E, all_digits_no_hyphen in D2. discriminate.
  - change (String c (p1 ++ "-" ++ d1) = String c' (p2 ++ "-" ++ d2)) in E.
    injection E as -> E. destruct (IH _ _ _ D1 D2 E) as [-> ->]. done.
Qed.

Lemma format_03d_inj n1 n2 :
  0 <= n1 -> 0 <= n2 -> Py.format_03d n1 = Py.format_03d n2 -> n1 = n2.
Proof.
  intros H1 H2 E.
  destruct (format_03d_digits n1 H1) as [_ V1].
  destruct (format_03d_digits n2 H2) as [_ V2].
  rewrite E, V2 in V1. injection V1 as V. lia.
Qed.

Lemma dict_get_key {V} k (v : V) d :
  Py.dict_get k d = Some v -> In k (Py.dict_keys d).
Proof.
  intros G. apply dict_get_In in G. change k with (fst (k, v)).
  by apply in_map.
Qed.

(** One call keeps every index entry, and keeps the entries well formed,
    as long as no two service ids share their upper-case form. *)
Lemma exec_index_inv c m :
  case_distinct_ids m ->
  (forall k s, In (k, s) (services m) -> sq_inv k s) ->
  (forall tok b, booking_index m !! tok = Some b -> index_entry_ok m tok b) ->
  (forall tok b, booking_index m !! tok = Some b ->
     booking_index (exec c m).2 !! tok = Some b)
  /\ (forall tok b, booking_index (exec c m).2 !! tok = Some b ->
        index_entry_ok (exec c m).2 tok b).
Proof.
  intros Ids Inv Ok. destruct c as [u sid | sid]; unfold exec.
  - destruct (book_slot_cases u sid m) as [| | |s b0 s' G U C];
      cbn [snd]; try (split; [done | exact Ok]).
    pose proof (Inv _ _ (dict_get_In _ _ _ G)) as [Ik It In_ Is _].
    unfold ServiceQueue.people_waiting in It.
    apply create_booking_Some in C as (_ & Eb & _ & _ & _ & _ & _ & _ & E7 & _).
    assert (Fresh : forall tok b, booking_index m !! tok = Some b ->
                      tok <> Booking.token b0).
    { intros tok b H E. destruct (Ok _ _ H) as (sb & n & Gb & T & Hn).
      rewrite Eb in E. cbn [Booking.token] in E. rewrite T, Ik in E.
      apply token_split in E as [Eu En];
        try (apply format_03d_digits; lia).
      apply format_03d_inj in En; [|lia|lia].
      apply Ids in Eu; eauto using dict_get_key.
      rewrite Eu, G in Gb. injection Gb as <-. lia. }
    split; cbn [booking_index services].
    + intros tok b H. rewrite lookup_insert_ne; [done|].
      intros E. by apply (Fresh _ _ H).
    + intros tok b H.
      destruct (decide (Booking.token b0 = tok)) as [<- | Hne].
      * rewrite lookup_insert_eq in H. injection H as <-.
        exists s', (ServiceQueue.next_token_number s).
        rewrite Eb. cbn [services Booking.token Booking.service_id].
        rewrite Ik, dict_get_set_eq, E7. repeat split; try done; lia.
      * rewrite lookup_insert_ne in H by done.
        destruct (Ok _ _ H) as (sb & n & Gb & T & Hn).
        destruct (decide (sid = Booking.service_id b)) as [E | Hk].
        -- exists s', n. cbn [services]. rewrite <- E in Gb, T |- *.
           rewrite dict_get_set_eq, E7.
           rewrite G in Gb. injection Gb as <-. repeat split; try done; lia.
        -- exists sb, n. cbn [services]. by rewrite dict_get_set_ne.
  - destruct (mark_served_cases sid m) as [| |s b0 s' G C];
      cbn [snd]; try (split; [done | exact Ok]).
    apply mark_next_served_Some in C as (_ & _ & _ & _ & _ & _ & E7 & _).
    split; cbn [booking_index services]; [done|].
    intros tok b H. destruct (Ok _ _ H) as (sb & n & Gb & T & Hn).
    destruct (decide (sid = Booking.service_id b)) as [E | Hk].
    + exists s', n. cbn [services]. rewrite <- E in Gb, T |- *.
      rewrite dict_get_set_eq, E7.
      rewrite G in Gb. injection Gb as <-. done.
    + exists sb, n. cbn [services]. by rewrite dict_get_set_ne.
Qed.

Lemma run_keys cs m :
  Py.dict_keys (services (run cs m).2) = Py.dict_keys (services m).
Proof.
  apply (run_state_ind
           (fun m' => Py.dict_keys (services m')
                      = Py.dict_keys (services m))); [done|].
  intros c m' E. by rewrite exec_keys.
Qed.

Lemma reachable_case_distinct cfgs cs :
  case_distinct_ids (init cfgs) -> case_distinct_ids (state_after cfgs cs).
Proof. unfold case_distinct_ids, state_after. by rewrite run_keys. Qed.

Lemma reachable_index_ok cfgs cs :
  case_distinct_ids (init cfgs) ->
  forall tok b,
    booking_index (state_after cfgs cs) !! tok = Some b ->
    index_entry_ok (state_after cfgs cs) tok b.
Proof.
  intros Ids. induction cs as [|c cs IH] using rev_ind.
  - intros tok b H. unfold state_after, init in H. simpl in H.
    by rewrite lookup_empty in H.
  - unfold state_after. rewrite run_snoc_state. fold (state_after cfgs cs).
    apply exec_index_inv; [by apply reachable_case_distinct | | exact IH].
    apply reachable_sq_inv.
Qed.

(** When no two configured ids share their upper-case form, a booking
    filed in the index stays filed under its token through every later
    call. *)
Lemma booking_index_entry_stays cfgs cs cs' tok b :
  case_distinct_ids (init cfgs) ->
  booking_index (state_after cfgs cs) !! tok = Some b ->
  booking_index (state_after cfgs (cs ++ cs')) !! tok = Some b.
Proof.
  intros Ids H. induction cs' as [|c cs' IH] using rev_ind.
  - by rewrite app_nil_r.
  - rewrite app_assoc. unfold state_after. rewrite run_snoc_state.
    fold (state_after cfgs (cs ++ cs')).
    apply exec_index_inv; [| | |exact IH].
    + by apply reachable_case_distinct.
    + apply reachable_sq_inv.
    + by apply reachable_index_ok.
Qed.

Example doctor_ids_case_distinct : case_distinct_ids (init doctor_cfgs).
Proof.
  intros k1 k2 H1 H2. vm_compute in H1, H2.
  destruct H1 as [<- | [<- | []]], H2 as [<- | [<- | []]];
    vm_compute; congruence.
Qed.

Example asha_stays_indexed :
  booking_index (state_after doctor_cfgs doctor_calls) !! "DOCTOR-001"
  = Some asha.
Proof.
  apply (booking_index_entry_stays doctor_cfgs [Book "Asha" "doctor"]
           [Book " Ben " "doctor"; Serve "doctor"]).
  - apply doctor_ids_case_distinct.
  - vm_compute. reflexivity.
Qed.

(** ** The demonstration run of the program *)

(** [run_demo]: the results of its eight calls and the history it leaves. *)
Example demo_run :
  let '(evs, m) :=
    run [Book "Asha" "doctor"; Book " Ben " "doctor"; Book "Cara" "doctor";
         Serve "doctor"; Serve "doctor"; Serve "doctor";
         Book "" "cashier"; Book "Deep" "unknown"]
        (init [("cashier", "Cashier", 3, 5);
               ("doctor", "Doctor Consultation", 2, 10)]) in
  map (fun e => (ok e.2, message e.2, Booking.token <$> booking e.2)) evs =
    [(true, "Booking confirmed.", Some "DOCTOR-001");
     (true, "Booking confirmed.", Some "DOCTOR-002");
     (false, "Service 'Doctor Consultation' is at full daily capacity.", None);
     (true, "Marked served: token DOCTOR-001 (Asha).", Some "DOCTOR-001");
     (true, "Marked served: token DOCTOR-002 (Ben).", Some "DOCTOR-002");
     (false, "Queue is empty for service 'Doctor Consultation'.", None);
     (false, "User name cannot be empty.", None);
     (false, "Invalid service id: 'unknown'.", None)]
  /\ history m =
     [[("cashier", 0); ("doctor", 0)]; [("cashier", 0); ("doctor", 1)];
      [("cashier", 0); ("doctor", 2)]; [("cashier", 0); ("doctor", 1)];
      [("cashier", 0); ("doctor", 0)]].
Proof. vm_compute. split; reflexivity. Qed.

Example graph_after_doctor_calls :
  history_graph_lines (state_after doctor_cfgs doctor_calls)
  = ["Queue Length vs Event (ASCII graph)";
     PyText.nl ++ "Cashier [cashier]";
     "event 00:  (0)"; "event 01:  (0)"; "event 02:  (0)"; "event 03:  (0)";
     PyText.nl ++ "Doctor Consultation [doctor]";
     "event 00:  (0)"; "event 01: # (1)"; "event 02: ## (2)";
     "event 03: # (1)"]
  /\ queue_status_rows (state_after doctor_cfgs doctor_calls)
     = ["cashier      | waiting=0   | served=0   | booked=0  /3   | avg=5m | est_wait_new=0m";
        "doctor       | waiting=1   | served=1   | booked=2  /2   | avg=10m | est_wait_new=10m"].
Proof. vm_compute. split; reflexivity. Qed.

(** * Further properties of the program *)

(** ** Construction *)

Lemma init_fold_get sid cfgs :
  forall acc : Py.dict ServiceQueue.t,
    Py.dict_get sid
      (fold_left
         (fun acc '(service_id, display_name, daily_capacity, avg_minutes) =>
            Py.dict_set service_id
              (ServiceQueue.init service_id display_name daily_capacity
                 avg_minutes) acc) cfgs acc)
    = match last_configured sid cfgs with
      | Some s => Some s
      | None => Py.dict_get sid acc
      end.
Proof.
  induction cfgs as [|[[[k dn] cap] avg] cfgs IH]; intros acc; [done|].
  cbn [fold_left last_configured]. rewrite IH.
  destruct (last_configured sid cfgs) as [s|]; [done|].
  destruct (String.eqb k sid) eqn:E.
  - apply String.eqb_eq in E. subst k. apply dict_get_set_eq.
  - apply String.eqb_neq in E. by apply dict_get_set_ne.
Qed.

(** X1. Construction keeps one service per id: the service found under
    an id is the one built from the last configuration tuple with that id,
    and an id that no tuple carries is not there. *)
Theorem init_last_config_wins cfgs sid :
  Py.dict_get sid (services (init cfgs)) = last_configured sid cfgs.
Proof.
  unfold init. rewrite record_history_services. cbn [services].
  rewrite init_fold_get. by destruct (last_configured sid cfgs).
Qed.

Lemma dict_set_fresh {V} k (v : V) d :
  ~ In k (Py.dict_keys d) -> Py.dict_set k v d = (d ++ [(k, v)])%list.
Proof.
  induction d as [|[k' v'] d IH]; intros H; [done|]. simpl in *.
  destruct (String.eqb k' k) eqn:E.
  - apply String.eqb_eq in E. subst k'. exfalso. auto.
  - rewrite IH; [done|]. auto.
Qed.

Lemma init_fold_distinct cfgs :
  forall acc : Py.dict ServiceQueue.t,
    NoDup (Py.dict_keys acc ++ map (fun c => (service_of_config c).1) cfgs) ->
    fold_left
      (fun acc '(service_id, display_name, daily_capacity, avg_minutes) =>
         Py.dict_set service_id
           (ServiceQueue.init service_id display_name daily_capacity
              avg_minutes) acc) cfgs acc
    = (acc ++ map service_of_config cfgs)%list.
Proof.
  induction cfgs as [|[[[k dn] cap] avg] cfgs IH]; intros acc H.
  - simpl. by rewrite app_nil_r.
  - cbn [fold_left map service_of_config fst] in *.
    assert (F : ~ In k (Py.dict_keys acc)).
    { intros I. apply NoDup_app in H as (_ & D & _).
      apply (D k); [by apply list_elem_of_In | apply list_elem_of_here]. }
    rewrite (dict_set_fresh _ _ _ F). rewrite IH.
    + by rewrite <- app_assoc.
    + unfold Py.dict_keys in *. rewrite map_app. cbn [map fst].
      by rewrite <- app_assoc.
Qed.

(** X2. When the configured ids are pairwise distinct, the manager holds
    the services in configuration order, each one fresh, the booking
    index is empty and the history has the single snapshot of all zeros. *)
Theorem init_keeps_config_order cfgs :
  NoDup (map (fun c => (service_of_config c).1) cfgs) ->
  services (init cfgs) = map service_of_config cfgs
  /\ booking_index (init cfgs) = ∅
  /\ history (init cfgs) = [map (fun c => ((service_of_config c).1, 0)) cfgs].
Proof.
  intros H.
  assert (E : services (init cfgs) = map service_of_config cfgs).
  { unfold init. rewrite record_history_services. cbn [services].
    by rewrite init_fold_distinct. }
  split; [exact E|]. split; [done|].
  unfold init, _record_history. cbn [history services]. 
  change (fold_left _ cfgs []) with (services (init cfgs)).
  rewrite E. simpl. f_equal. rewrite map_map. apply map_ext.
  by intros [[[k dn] cap] avg].
Qed.

Lemma init_keeps_config_order_witness :
  NoDup (map (fun c => (service_of_config c).1) doctor_cfgs)
  /\ services (init doctor_cfgs)
     = [("cashier", cashier_idle);
        ("doctor", ServiceQueue.init "doctor" "Doctor Consultation" 2 10)]
  /\ history (init doctor_cfgs) = [[("cashier", 0); ("doctor", 0)]].
Proof.
  assert (H : NoDup (map (fun c => (service_of_config c).1) doctor_cfgs)).
  { simpl. repeat (apply NoDup_cons; split;
                     [rewrite ?elem_of_cons, elem_of_nil; intros ?;
                      intuition discriminate|]).
    apply NoDup_nil_2. }
  split; [exact H|].
  destruct (init_keeps_config_order doctor_cfgs H) as (S & _ & Hi).
  split; [exact S | exact Hi].
Defined.

(** ** What calls leave alone *)

Lemma sq_later_refl s : sq_later s s.
Proof. split; lia || done. Qed.

Lemma sq_later_trans s1 s2 s3 : sq_later s1 s2 -> sq_later s2 s3 -> sq_later s1 s3.
Proof. intros [] []. split; congruence || lia. Qed.

Lemma sq_step_later s s' : sq_step s s' -> sq_later s s'.
Proof.
  intros St. inversion St as [u s0 b s1 C | s0 b s1 C]; subst s0 s1.
  - apply create_booking_Some in C
      as (_ & _ & E1 & E2 & E3 & E4 & _ & E6 & E7 & E8).
    split; rewrite ?E1, ?E2, ?E3, ?E4, ?E6, ?E7, ?E8; lia || done.
  - apply mark_next_served_Some in C
      as (_ & E1 & E2 & E3 & E4 & E6 & E7 & E8).
    split; rewrite ?E1, ?E2, ?E3, ?E4, ?E6, ?E7, ?E8; lia || done.
Qed.

Lemma run_later sid cs :
  forall m s, Py.dict_get sid (services m) = Some s ->
  exists s', Py.dict_get sid (services (run cs m).2) = Some s'
             /\ sq_later s s'.
Proof.
  induction cs as [|c cs IH]; intros m s G.
  - exists s. split; [done | apply sq_later_refl].
  - rewrite run_cons. cbn [snd].
    destruct (exec_view sid s c m G) as [O A S | u b s' O C A S | b s' O C A S].
    + by apply IH.
    + destruct (IH _ _ O) as (s2 & G2 & L). exists s2. split; [done|].
      eapply sq_later_trans; [|exact L]. eapply sq_step_later, sq_admit, C.
    + destruct (IH _ _ O) as (s2 & G2 & L). exists s2. split; [done|].
      eapply sq_later_trans; [|exact L]. eapply sq_step_later, sq_serve, C.
Qed.

(** X3. The set of services is fixed at construction: no sequence of
    calls adds, removes or reorders a service, and a service keeps its id,
    display name, daily capacity and average service time. *)
Theorem service_table_is_fixed m cs :
  Py.dict_keys (services (run cs m).2) = Py.dict_keys (services m)
  /\ (forall sid,
        Py.dict_get sid (services m) = None ->
        Py.dict_get sid (services (run cs m).2) = None)
  /\ (forall sid s,
        Py.dict_get sid (services m) = Some s ->
        exists s',
          Py.dict_get sid (services (run cs m).2) = Some s'
          /\ ServiceQueue.service_id s' = ServiceQueue.service_id s
          /\ ServiceQueue.display_name s' = ServiceQueue.display_name s
          /\ ServiceQueue.daily_capacity s' = ServiceQueue.daily_capacity s
          /\ ServiceQueue.avg_service_minutes s'
             = ServiceQueue.avg_service_minutes s).
Proof.
  split; [apply run_keys|]. split.
  - intros sid G. by destruct (run_unknown sid cs m G) as (_ & _ & G').
  - intros sid s G. destruct (run_later sid cs m s G) as (s' & G' & []).
    exists s'. done.
Qed.

Lemma service_table_is_fixed_witness :
  let m := state_after doctor_cfgs [Book "Asha" "doctor"; Book "Ben" "doctor"] in
  let m' := (run [Serve "doctor"; Book "Cara" "cashier"] m).2 in
  Py.dict_keys (services m') = ["cashier"; "doctor"]
  /\ (Py.dict_get "unknown" (services m) = None
      /\ Py.dict_get "unknown" (services m') = None)
  /\ (Py.dict_get "doctor" (services m) = Some doctor_full
      /\ ServiceQueue.daily_capacity <$> Py.dict_get "doctor" (services m')
         = Some 2).
Proof.
  intros m m'.
  destruct (service_table_is_fixed m [Serve "doctor"; Book "Cara" "cashier"])
    as (K & Un & Kn).
  assert (GU : Py.dict_get "unknown" (services m) = None)
    by (vm_compute; reflexivity).
  assert (GD : Py.dict_get "doctor" (services m) = Some doctor_full)
    by (vm_compute; reflexivity).
  split; [exact K|]. split; [split; [exact GU | exact (Un "unknown" GU)]|].
  split; [exact GD|].
  destruct (Kn "doctor" doctor_full GD) as (s' & G' & _ & _ & C & _).
  fold m' in G'. rewrite G'. simpl. by rewrite C.
Defined.

(** X4. The counters of a service only grow: after any sequence of calls
    [total_bookings_created], [next_token_number] and [served_count] are
    at least what they were. *)
Theorem counters_never_decrease m cs sid s :
  Py.dict_get sid (services m) = Some s ->
  exists s',
    Py.dict_get sid (services (run cs m).2) = Some s'
    /\ ServiceQueue.total_bookings_created s
       <= ServiceQueue.total_bookings_created s'
    /\ ServiceQueue.next_token_number s <= ServiceQueue.next_token_number s'
    /\ ServiceQueue.served_count s <= ServiceQueue.served_count s'.
Proof.
  intros G. destruct (run_later sid cs m s G) as (s' & G' & []).
  exists s'. done.
Qed.

Lemma counters_never_decrease_witness :
  let m := state_after doctor_cfgs [Book "Asha" "doctor"; Book "Ben" "doctor"] in
  Py.dict_get "doctor" (services m) = Some doctor_full
  /\ Py.dict_get "doctor" (services (run [Serve "doctor"] m).2)
     = Some doctor_busy
  /\ ServiceQueue.served_count doctor_full
     <= ServiceQueue.served_count doctor_busy.
Proof.
  intros m.
  assert (G : Py.dict_get "doctor" (services m) = Some doctor_full)
    by (vm_compute; reflexivity).
  assert (G' : Py.dict_get "doctor" (services (run [Serve "doctor"] m).2)
               = Some doctor_busy) by (vm_compute; reflexivity).
  split; [exact G|]. split; [exact G'|].
  destruct (counters_never_decrease m [Serve "doctor"] "doctor" doctor_full G)
    as (s' & Gs & _ & _ & L).
  rewrite G' in Gs. injection Gs as <-. exact L.
Defined.

(** X5. A call touches only the service it names: every other service
    object is the same after the call; and [mark_served] leaves the
    booking index as it was. *)
Theorem call_frame c m :
  (forall sid,
     sid <> call_service c ->
     Py.dict_get sid (services (exec c m).2) = Py.dict_get sid (services m))
  /\ (forall sid, booking_index (mark_served sid m).2 = booking_index m).
Proof.
  split; [|intros sid; apply mark_served_keeps_index].
  intros sid Hne. destruct c as [u k | k]; unfold exec; cbn [call_service] in Hne.
  - destruct (book_slot_cases u k m); cbn [snd services]; try done.
    by apply dict_get_set_ne.
  - destruct (mark_served_cases k m); cbn [snd services]; try done.
    by apply dict_get_set_ne.
Qed.

Lemma call_frame_witness :
  let m := state_after doctor_cfgs [Book "Asha" "doctor"] in
  "cashier" <> call_service (Book "Ben" "doctor")
  /\ Py.dict_get "cashier" (services (exec (Book "Ben" "doctor") m).2)
     = Some cashier_idle.
Proof.
  intros m.
  assert (N : "cashier" <> call_service (Book "Ben" "doctor"))
    by discriminate.
  split; [exact N|].
  destruct (call_frame (Book "Ben" "doctor") m) as [F _].
  rewrite (F "cashier" N). vm_compute. reflexivity.
Defined.

(** ** History and state *)

Lemma snapshot_keys d : Py.dict_keys (snapshot_of d) = Py.dict_keys d.
Proof.
  unfold Py.dict_keys, snapshot_of. rewrite map_map. apply map_ext.
  by intros [k q].
Qed.

(** What a call does to the history: nothing, or one more snapshot, taken
    of the services as they are after the call. *)
Lemma exec_history_shape c m :
  (exec c m).2 = m
  \/ history (exec c m).2
     = (history m ++ [snapshot_of (services (exec c m).2)])%list.
Proof.
  destruct c as [u sid | sid]; unfold exec.
  - destruct (book_slot_cases u sid m); auto.
  - destruct (mark_served_cases sid m); auto.
Qed.

Lemma run_history_grows cs :
  forall m, exists more, history (run cs m).2 = (history m ++ more)%list.
Proof.
  induction cs as [|c cs IH]; intros m.
  - exists []. simpl. by rewrite app_nil_r.
  - rewrite run_cons. cbn [snd]. destruct (IH (exec c m).2) as [more E].
    destruct (exec_history_shape c m) as [Same | Grow].
    + exists more. by rewrite E, Same.
    + eexists. rewrite E, Grow, <- app_assoc. reflexivity.
Qed.

Lemma reachable_history_last cfgs cs :
  last (history (state_after cfgs cs))
  = Some (snapshot_of (services (state_after cfgs cs))).
Proof.
  unfold state_after.
  apply (run_state_ind
           (fun m => last (history m) = Some (snapshot_of (services m)))).
  - done.
  - intros c m H. destruct (exec_history_shape c m) as [-> | ->]; [done|].
    apply last_snoc.
Qed.

Lemma reachable_history_keys cfgs cs snap :
  In snap (history (state_after cfgs cs)) ->
  Py.dict_keys snap = Py.dict_keys (services (init cfgs)).
Proof.
  intros Hin.
  assert (Q : Py.dict_keys (services (state_after cfgs cs))
              = Py.dict_keys (services (init cfgs))
              /\ forall x, In x (history (state_after cfgs cs)) ->
                   Py.dict_keys x = Py.dict_keys (services (init cfgs))).
  { unfold state_after.
    apply (run_state_ind
             (fun m => Py.dict_keys (services m)
                       = Py.dict_keys (services (init cfgs))
                       /\ forall x, In x (history m) ->
                            Py.dict_keys x
                            = Py.dict_keys (services (init cfgs)))).
    - split; [done|]. intros x [<- | []]. apply snapshot_keys.
    - intros c m [K H]. split; [by rewrite exec_keys|].
      destruct (exec_history_shape c m) as [-> | ->]; [done|].
      intros x Hx. apply in_app_or in Hx as [Hx | [<- | []]]; [auto|].
      by rewrite snapshot_keys, exec_keys. }
  by apply Q.
Qed.

(** X6. The history is append-only and follows the state: calls never
    change or drop a recorded snapshot; in every reachable state the last
    snapshot gives the present waiting count of every service; and every
    snapshot lists exactly the configured services, in their order. *)
Theorem history_tracks_state :
  (forall m cs,
     exists more, history (run cs m).2 = (history m ++ more)%list)
  /\ (forall cfgs cs,
        last (history (state_after cfgs cs))
        = Some (snapshot_of (services (state_after cfgs cs))))
  /\ (forall cfgs cs snap,
        In snap (history (state_after cfgs cs)) ->
        Py.dict_keys snap = Py.dict_keys (services (init cfgs))).
Proof.
  split; [intros m cs; apply run_history_grows|].
  split; [apply reachable_history_last | apply reachable_history_keys].
Qed.

Lemma history_tracks_state_witness :
  let m := state_after doctor_cfgs doctor_calls in
  last (history m) = Some [("cashier", 0); ("doctor", 1)]
  /\ In [("cashier", 0); ("doctor", 2)] (history m)
  /\ Py.dict_keys [("cashier", 0); ("doctor", 2)]
     = Py.dict_keys (services (init doctor_cfgs)).
Proof.
  intros m. destruct history_tracks_state as (_ & Last & Keys).
  assert (H : In [("cashier", 0); ("doctor", 2)] (history m)).
  { vm_compute. right. right. left. reflexivity. }
  split; [etransitivity; [exact (Last doctor_cfgs doctor_calls)|];
          vm_compute; reflexivity|].
  split; [exact H|]. exact (Keys doctor_cfgs doctor_calls _ H).
Defined.

(** ** Counters and traces *)

Lemma run_counts sid cs :
  forall m s, Py.dict_get sid (services m) = Some s ->
  exists s',
    Py.dict_get sid (services (run cs m).2) = Some s'
    /\ ServiceQueue.total_bookings_created s'
       = ServiceQueue.total_bookings_created s
         + Z.of_nat (length (admitted sid (run cs m).1))
    /\ ServiceQueue.served_count s'
       = ServiceQueue.served_count s
         + Z.of_nat (length (served sid (run cs m).1)).
Proof.
  induction cs as [|c cs IH]; intros m s G.
  - exists s. simpl. split; [done|]. lia.
  - rewrite run_cons. cbn [fst snd]. rewrite admitted_cons, served_cons.
    rewrite !length_app.
    destruct (exec_view sid s c m G) as [O A S | u b s' O C A S | b s' O C A S];
      destruct (IH _ _ O) as (s2 & G2 & T2 & S2); exists s2;
      rewrite A, S; simpl length.
    + split; [done|]. lia.
    + apply create_booking_Some in C as (_ & _ & _ & _ & _ & _ & _ & E6 & _ & E8).
      split; [done|]. lia.
    + apply mark_next_served_Some in C as (_ & _ & _ & _ & _ & E6 & _ & E8).
      split; [done|]. lia.
Qed.

(** X7. The counters count the successful calls: in every reachable
    state [total_bookings_created] of a service is the number of
    successful [book_slot] calls for it, [served_count] the number of
    successful [mark_served] calls, the waiting line holds the difference,
    and a service of non-negative capacity has admitted at most
    [daily_capacity] bookings. *)
Theorem counters_count_successful_calls cfgs cs sid s :
  Py.dict_get sid (services (state_after cfgs cs)) = Some s ->
  ServiceQueue.total_bookings_created s
  = Z.of_nat (length (admitted sid (trace_of cfgs cs)))
  /\ ServiceQueue.served_count s
     = Z.of_nat (length (served sid (trace_of cfgs cs)))
  /\ ServiceQueue.people_waiting s
     = Z.of_nat (length (admitted sid (trace_of cfgs cs)))
       - Z.of_nat (length (served sid (trace_of cfgs cs)))
  /\ (0 <= ServiceQueue.daily_capacity s ->
      Z.of_nat (length (admitted sid (trace_of cfgs cs)))
      <= ServiceQueue.daily_capacity s).
Proof.
  intros G. unfold state_after, trace_of in *.
  destruct (Py.dict_get sid (services (init cfgs))) as [s0|] eqn:G0.
  - destruct (run_counts sid cs _ _ G0) as (s' & G' & T & S).
    rewrite G in G'. injection G' as <-.
    apply dict_get_In, init_service in G0 as (dn & cap & avg & ->).
    simpl in T, S.
    destruct (reachable_sq_inv cfgs cs sid s (dict_get_In _ _ _ G))
      as [_ It _ _ Ic].
    repeat split; lia.
  - destruct (run_unknown sid cs _ G0) as (_ & _ & N). congruence.
Qed.

Lemma counters_count_successful_calls_witness :
  Py.dict_get "doctor" (services (state_after doctor_cfgs doctor_calls))
  = Some doctor_busy
  /\ ServiceQueue.total_bookings_created doctor_busy = 2
  /\ length (admitted "doctor" (trace_of doctor_cfgs doctor_calls)) = 2%nat
  /\ ServiceQueue.served_count doctor_busy = 1
  /\ length (served "doctor" (trace_of doctor_cfgs doctor_calls)) = 1%nat
  /\ 0 <= ServiceQueue.daily_capacity doctor_busy
  /\ Z.of_nat (length (admitted "doctor" (trace_of doctor_cfgs doctor_calls)))
     <= ServiceQueue.daily_capacity doctor_busy.
Proof.
  assert (G : Py.dict_get "doctor"
                (services (state_after doctor_cfgs doctor_calls))
              = Some doctor_busy) by (vm_compute; reflexivity).
  assert (C : 0 <= ServiceQueue.daily_capacity doctor_busy) by (simpl; lia).
  destruct (counters_count_successful_calls doctor_cfgs doctor_calls
              "doctor" doctor_busy G) as (T & S & _ & B).
  split; [exact G|]. split; [reflexivity|].
  split; [vm_compute; reflexivity|]. split; [reflexivity|].
  split; [vm_compute; reflexivity|]. split; [exact C | exact (B C)].
Defined.

(** ** When calls succeed *)

(** X8. For an ASCII user name, [book_slot] succeeds exactly when the
    service exists, the name is not blank and the service is not full;
    [mark_served] succeeds exactly when the service exists and somebody
    is waiting. *)
Theorem success_conditions u sid m :
  (is_ascii u = true ->
   (ok (book_slot u sid m).1 = true
    <-> exists s, Py.dict_get sid (services m) = Some s
                  /\ all_space u = false
                  /\ ServiceQueue.is_full s = false))
  /\ (ok (mark_served sid m).1 = true
      <-> exists s, Py.dict_get sid (services m) = Some s
                    /\ ServiceQueue.waiting s <> []).
Proof.
  split; [intros _|]; split.
  - destruct (book_slot_cases u sid m) as [N | s G U | s G U F | s b s' G U C];
      cbn [fst ok]; try discriminate.
    intros _. exists s. split; [done|]. split.
    + destruct (all_space u) eqn:A; [|done]. by apply strip_empty in A.
    + by apply create_booking_Some in C as (F & _).
  - intros (s & G & A & F).
    destruct (book_slot_cases u sid m) as [N | s0 G0 U | s0 G0 U F0 | s0 b s' G0 U C];
      cbn [fst ok]; try done.
    + congruence.
    + apply strip_empty in U. congruence.
    + congruence.
  - destruct (mark_served_cases sid m) as [N | s G W | s b s' G C];
      cbn [fst ok]; try discriminate.
    intros _. exists s. split; [done|].
    apply mark_next_served_Some in C as (W & _). by rewrite W.
  - intros (s & G & W).
    destruct (mark_served_cases sid m) as [N | s0 G0 W0 | s0 b s' G0 C];
      cbn [fst ok]; try done; congruence.
Qed.

Lemma success_conditions_witness :
  let m := state_after doctor_cfgs [Book "Asha" "doctor"] in
  Py.dict_get "doctor" (services m) = Some doctor_one
  /\ is_ascii "Ben" = true
  /\ all_space "Ben" = false
  /\ ServiceQueue.is_full doctor_one = false
  /\ ok (book_slot "Ben" "doctor" m).1 = true
  /\ ServiceQueue.waiting doctor_one <> []
  /\ ok (mark_served "doctor" m).1 = true.
Proof.
  intros m. destruct (success_conditions "Ben" "doctor" m) as [B [_ S]].
  assert (A : is_ascii "Ben" = true) by reflexivity.
  destruct (B A) as [_ B'].
  assert (G : Py.dict_get "doctor" (services m) = Some doctor_one)
    by (vm_compute; reflexivity).
  assert (W : ServiceQueue.waiting doctor_one <> []) by discriminate.
  split; [exact G|]. split; [exact A|]. split; [reflexivity|].
  split; [reflexivity|].
  split; [apply B'; exists doctor_one; split; [exact G|]; split; reflexivity|].
  split; [exact W|]. apply S. exists doctor_one. split; [exact G | exact W].
Defined.

(** ** What a booking records *)

Lemma lstrip_head u : starts_with_space (Py.lstrip u) = false.
Proof.
  induction u as [|c r IH]; [done|]. simpl.
  destruct (Py.isspace c) eqn:E; [done|]. simpl. exact E.
Qed.

Lemma rstrip_head t :
  starts_with_space t = false -> starts_with_space (Py.rstrip t) = false.
Proof.
  destruct t as [|c r]; [done|]. simpl. intros E.
  destruct (Py.rstrip r); [by rewrite E|done].
Qed.

Lemma rstrip_last t : ends_with_space (Py.rstrip t) = false.
Proof.
  induction t as [|c r IH]; [done|]. simpl.
  destruct (Py.rstrip r) as [|a r'] eqn:R.
  - by destruct (Py.isspace c) eqn:E; simpl; rewrite ?E.
  - exact IH.
Qed.

(** X9. A successful [book_slot] in a reachable state returns a booking
    for the service that was asked for, under a name that is not empty;
    for an ASCII user name it is the stripped name, with no white space at
    either end. *)
Theorem booking_records_the_request cfgs cs u sid b :
  booking (book_slot u sid (state_after cfgs cs)).1 = Some b ->
  Booking.service_id b = sid
  /\ Booking.user_name b <> ""
  /\ (is_ascii u = true ->
      Booking.user_name b = Py.strip u
      /\ starts_with_space (Booking.user_name b) = false
      /\ ends_with_space (Booking.user_name b) = false).
Proof.
  intros B.
  destruct (book_slot_cases u sid (state_after cfgs cs))
    as [N | s G U | s G U F | s b0 s' G U C];
    cbn [fst booking] in B; try discriminate.
  injection B as ->.
  destruct (reachable_sq_inv cfgs cs sid s (dict_get_In _ _ _ G)) as [Ik _ _ _ _].
  apply create_booking_Some in C as (_ & -> & _). cbn.
  split; [exact Ik|]. split; [done|]. intros _. split; [done|]. split.
  - apply rstrip_head, lstrip_head.
  - apply rstrip_last.
Qed.

Lemma booking_records_the_request_witness :
  booking (book_slot " Ben " "doctor"
             (state_after doctor_cfgs [Book "Asha" "doctor"])).1 = Some ben
  /\ Booking.service_id ben = "doctor"
  /\ is_ascii " Ben " = true
  /\ Booking.user_name ben = Py.strip " Ben "
  /\ ends_with_space (Booking.user_name ben) = false.
Proof.
  assert (B : booking (book_slot " Ben " "doctor"
                         (state_after doctor_cfgs [Book "Asha" "doctor"])).1
              = Some ben) by (vm_compute; reflexivity).
  destruct (booking_records_the_request doctor_cfgs [Book "Asha" "doctor"]
              " Ben " "doctor" ben B) as (S & _ & N).
  destruct (N eq_refl) as (U & _ & E).
  split; [exact B|]. split; [exact S|]. split; [reflexivity|].
  split; [exact U | exact E].
Defined.

(** X10. The estimate of a booking made in a reachable state is the
    number of bookings admitted to the service so far, less the number
    served so far, times the service's [avg_service_minutes]. *)
Theorem estimate_from_trace cfgs cs u sid s b :
  Py.dict_get sid (services (state_after cfgs cs)) = Some s ->
  booking (book_slot u sid (state_after cfgs cs)).1 = Some b ->
  Booking.estimated_wait_minutes_at_booking b
  = (Z.of_nat (length (admitted sid (trace_of cfgs cs)))
     - Z.of_nat (length (served sid (trace_of cfgs cs))))
    * ServiceQueue.avg_service_minutes s.
Proof.
  intros G B.
  pose proof (run_fifo sid cs (init cfgs)) as F.
  rewrite init_waiting in F. simpl in F. apply (f_equal length) in F.
  rewrite length_app in F. fold (trace_of cfgs cs) in F.
  fold (state_after cfgs cs) in F. unfold waiting_of in F. rewrite G in F.
  destruct (book_slot_cases u sid (state_after cfgs cs))
    as [N | s0 G0 U | s0 G0 U F0 | s0 b0 s' G0 U C];
    cbn [fst booking] in B; try discriminate.
  injection B as ->. rewrite G in G0. injection G0 as <-.
  apply create_booking_Some in C as (_ & -> & _). cbn.
  unfold ServiceQueue.estimate_wait_minutes. f_equal. lia.
Qed.

Lemma estimate_from_trace_witness :
  let cs := [Book "Asha" "doctor"] in
  Py.dict_get "doctor" (services (state_after doctor_cfgs cs))
  = Some doctor_one
  /\ booking (book_slot "Ben" "doctor" (state_after doctor_cfgs cs)).1
     = Some ben
  /\ length (admitted "doctor" (trace_of doctor_cfgs cs)) = 1%nat
  /\ length (served "doctor" (trace_of doctor_cfgs cs)) = 0%nat
  /\ Booking.estimated_wait_minutes_at_booking ben
     = (Z.of_nat (length (admitted "doctor" (trace_of doctor_cfgs cs)))
        - Z.of_nat (length (served "doctor" (trace_of doctor_cfgs cs))))
       * ServiceQueue.avg_service_minutes doctor_one.
Proof.
  intros cs.
  assert (G : Py.dict_get "doctor" (services (state_after doctor_cfgs cs))
              = Some doctor_one) by (vm_compute; reflexivity).
  assert (B : booking (book_slot "Ben" "doctor"
                         (state_after doctor_cfgs cs)).1 = Some ben)
    by (vm_compute; reflexivity).
  split; [exact G|]. split; [exact B|].
  split; [vm_compute; reflexivity|]. split; [vm_compute; reflexivity|].
  exact (estimate_from_trace doctor_cfgs cs "Ben" "doctor" doctor_one ben G B).
Defined.

(** ** The booking index as a record of what was issued *)

Lemma dict_get_set_is_Some {V} k k' (v : V) d :
  is_Some (Py.dict_get k' d) -> is_Some (Py.dict_get k' (Py.dict_set k v d)).
Proof.
  intros H. destruct (decide (k = k')) as [<- | Hne].
  - rewrite dict_get_set_eq. by eexists.
  - by rewrite dict_get_set_ne.
Qed.

Lemma run_snoc_trace cs c m :
  (run (cs ++ [c]) m).1
  = ((run cs m).1 ++ [(c, (exec c (run cs m).2).1)])%list.
Proof.
  rewrite run_app. destruct (run cs m) as [evs1 m1]. simpl.
  by destruct (exec c m1).
Qed.

(** X11. In every reachable state each entry of the booking index is
    filed under the token of its own booking, and its booking names a
    configured service. *)
Theorem index_entries_well_filed cfgs cs tok b :
  booking_index (state_after cfgs cs) !! tok = Some b ->
  Booking.token b = tok
  /\ is_Some (Py.dict_get (Booking.service_id b)
                (services (state_after cfgs cs))).
Proof.
  revert tok b. induction cs as [|c cs IH] using rev_ind; intros tok b H.
  - unfold state_after, init in H. simpl in H. by rewrite lookup_empty in H.
  - unfold state_after in *. rewrite run_snoc_state in *.
    fold (state_after cfgs cs) in *. destruct c as [u sid | sid]; unfold exec in *.
    + destruct (book_slot_cases u sid (state_after cfgs cs))
        as [N | s G U | s G U F | s b0 s' G U C];
        cbn [snd booking_index services] in *; auto.
      destruct (decide (Booking.token b0 = tok)) as [<- | Hne].
      * rewrite lookup_insert_eq in H. injection H as <-. split; [done|].
        destruct (reachable_sq_inv cfgs cs sid s (dict_get_In _ _ _ G))
          as [Ik _ _ _ _].
        apply create_booking_Some in C as (_ & -> & _). cbn.
        rewrite Ik, dict_get_set_eq. by eexists.
      * rewrite lookup_insert_ne in H by done.
        destruct (IH _ _ H) as [T S]. split; [done|].
        by apply dict_get_set_is_Some.
    + destruct (mark_served_cases sid (state_after cfgs cs))
        as [N | s G W | s b0 s' G C];
        cbn [snd booking_index services] in *; auto.
      destruct (IH _ _ H) as [T S]. split; [done|].
      by apply dict_get_set_is_Some.
Qed.

Lemma index_entries_well_filed_witness :
  booking_index (state_after twin_cfgs twin_calls) !! "DOCTOR-001"
  = Some ben_annex
  /\ Booking.token ben_annex = "DOCTOR-001"
  /\ is_Some (Py.dict_get (Booking.service_id ben_annex)
                (services (state_after twin_cfgs twin_calls))).
Proof.
  assert (H : booking_index (state_after twin_cfgs twin_calls) !! "DOCTOR-001"
              = Some ben_annex) by (vm_compute; reflexivity).
  split; [exact H|].
  exact (index_entries_well_filed twin_cfgs twin_calls "DOCTOR-001"
           ben_annex H).
Defined.

(** X12. No sequence of calls removes a token from the booking index:
    a token that has an entry keeps having one. *)
Theorem index_never_drops_a_token m cs tok :
  is_Some (booking_index m !! tok) ->
  is_Some (booking_index (run cs m).2 !! tok).
Proof.
  intros H.
  apply (run_state_ind (fun m' => is_Some (booking_index m' !! tok))); [done|].
  intros c m' H'. by apply booking_index_keys_kept.
Qed.

Lemma index_never_drops_a_token_witness :
  let m := state_after twin_cfgs [Book "Asha" "doctor"] in
  is_Some (booking_index m !! "DOCTOR-001")
  /\ is_Some (booking_index
                (run [Book "Ben" "DOCTOR"; Serve "doctor"] m).2
              !! "DOCTOR-001").
Proof.
  intros m.
  assert (H : is_Some (booking_index m !! "DOCTOR-001")).
  { exists asha. vm_compute. reflexivity. }
  split; [exact H|].
  exact (index_never_drops_a_token m [Book "Ben" "DOCTOR"; Serve "doctor"]
           "DOCTOR-001" H).
Defined.

Lemma admitted_singleton sid c r b :
  In b (admitted sid [(c, r)]) ->
  exists u, c = Book u sid /\ ok r = true /\ booking r = Some b.
Proof.
  destruct c as [u k | k]; simpl; [|done].
  destruct (String.eqb k sid) eqn:E; [|done].
  apply String.eqb_eq in E. subst k.
  destruct (ok r); [|done]. simpl.
  destruct (booking r) as [b0|]; [|done]. intros [<- | []]. by exists u.
Qed.

Lemma admitted_is_indexed cfgs cs sid b :
  case_distinct_ids (init cfgs) ->
  In b (admitted sid (trace_of cfgs cs)) ->
  booking_index (state_after cfgs cs) !! Booking.token b = Some b.
Proof.
  intros Ids. induction cs as [|c cs IH] using rev_ind; intros H; [done|].
  unfold trace_of, state_after in *.
  rewrite run_snoc_trace in H. rewrite run_snoc_state.
  fold (state_after cfgs cs) in *.
  unfold admitted in H. rewrite omap_app in H.
  apply in_app_or in H as [H | H].
  - apply exec_index_inv; [| | |by apply IH].
    + by apply reachable_case_distinct.
    + apply reachable_sq_inv.
    + by apply reachable_index_ok.
  - apply admitted_singleton in H as (u & -> & _ & B).
    by apply book_slot_indexes.
Qed.

(** X13. When the configured service ids are ASCII text and no two of
    them share their upper-case form, the index is a complete record:
    every booking ever admitted, served or not, is found under its
    token. *)
Theorem every_admitted_booking_is_indexed cfgs cs sid b :
  ascii_ids (init cfgs) ->
  case_distinct_ids (init cfgs) ->
  In b (admitted sid (trace_of cfgs cs)) ->
  booking_index (state_after cfgs cs) !! Booking.token b = Some b.
Proof. intros _. apply admitted_is_indexed. Qed.

Lemma every_admitted_booking_is_indexed_witness :
  ascii_ids (init doctor_cfgs)
  /\ case_distinct_ids (init doctor_cfgs)
  /\ In asha (admitted "doctor" (trace_of doctor_cfgs doctor_calls))
  /\ booking_index (state_after doctor_cfgs doctor_calls) !! "DOCTOR-001"
     = Some asha.
Proof.
  assert (Ids : case_distinct_ids (init doctor_cfgs)).
  { intros k1 k2 H1 H2. vm_compute in H1, H2.
    destruct H1 as [<- | [<- | []]], H2 as [<- | [<- | []]];
      vm_compute; congruence. }
  assert (H : In asha (admitted "doctor" (trace_of doctor_cfgs doctor_calls))).
  { vm_compute. left. reflexivity. }
  assert (Asc : ascii_ids (init doctor_cfgs)).
  { intros k Hk. vm_compute in Hk. destruct Hk as [<- | [<- | []]];
      reflexivity. }
  split; [exact Asc|]. split; [exact Ids|]. split; [exact H|].
  exact (every_admitted_booking_is_indexed doctor_cfgs doctor_calls
           "doctor" asha Asc Ids H).
Defined.

(** X18. When the configured service ids are ASCII text and no two of
    them share their upper-case form, a token names one booking: two
    admitted bookings with the same token, of whatever services, are the
    same booking. *)
Theorem token_identifies_booking cfgs cs sid1 sid2 b1 b2 :
  ascii_ids (init cfgs) ->
  case_distinct_ids (init cfgs) ->
  In b1 (admitted sid1 (trace_of cfgs cs)) ->
  In b2 (admitted sid2 (trace_of cfgs cs)) ->
  Booking.token b1 = Booking.token b2 ->
  b1 = b2.
Proof.
  intros _ Ids H1 H2 E.
  pose proof (admitted_is_indexed cfgs cs sid1 b1 Ids H1) as I1.
  pose proof (admitted_is_indexed cfgs cs sid2 b2 Ids H2) as I2.
  rewrite E, I2 in I1. by injection I1.
Qed.

Lemma token_identifies_booking_witness :
  ascii_ids (init doctor_cfgs)
  /\ case_distinct_ids (init doctor_cfgs)
  /\ In asha (admitted "doctor" (trace_of doctor_cfgs doctor_calls))
  /\ Booking.token asha = Booking.token asha
  /\ asha = asha.
Proof.
  assert (Ids : case_distinct_ids (init doctor_cfgs)).
  { intros k1 k2 H1 H2. vm_compute in H1, H2.
    destruct H1 as [<- | [<- | []]], H2 as [<- | [<- | []]];
      vm_compute; congruence. }
  assert (H : In asha (admitted "doctor" (trace_of doctor_cfgs doctor_calls))).
  { vm_compute. left. reflexivity. }
  assert (Asc : ascii_ids (init doctor_cfgs)).
  { intros k Hk. vm_compute in Hk. destruct Hk as [<- | [<- | []]];
      reflexivity. }
  split; [exact Asc|]. split; [exact Ids|]. split; [exact H|].
  split; [reflexivity|].
  exact (token_identifies_booking doctor_cfgs doctor_calls "doctor" "doctor"
           asha asha Asc Ids H H eq_refl).
Defined.

(** ** The text rows *)

Lemma length_spaces k : String.length (PyText.spaces k) = k.
Proof. induction k; simpl; congruence. Qed.

Lemma length_ljust w s :
  String.length (PyText.ljust w s) = Nat.max w (String.length s).
Proof. unfold PyText.ljust. rewrite length_append, length_spaces. lia. Qed.

Lemma append_assoc (a b c : string) : (a ++ b) ++ c = a ++ b ++ c.
Proof.
  induction a as [|x a IH]; [reflexivity|].
  change (String x ((a ++ b) ++ c) = String x (a ++ b ++ c)). by rewrite IH.
Qed.

Lemma substring_prefix a b : substring 0 (String.length a) (a ++ b) = a.
Proof.
  induction a as [|x a IH]; [by destruct b|].
  change (String x (substring 0 (String.length a) (a ++ b)) = String x a).
  by rewrite IH.
Qed.

Lemma substring_all s : substring 0 (String.length s) s = s.
Proof. induction s as [|x s IH]; simpl; congruence. Qed.

Lemma str_int_small :
  forallb (fun i => Nat.leb (String.length (PyText.str_int (Z.of_nat i))) 3)
    (seq 0 1000) = true.
Proof. vm_compute. reflexivity. Qed.

Lemma length_str_int n :
  0 <= n <= 999 -> (String.length (PyText.str_int n) <= 3)%nat.
Proof.
  intros H. pose proof str_int_small as F. rewrite forallb_forall in F.
  specialize (F (Z.to_nat n)). rewrite Z2Nat.id in F by lia.
  apply Nat.leb_le, F, in_seq. lia.
Qed.

(** A row whose five padded fields have their nominal widths has its
    separators at fixed places. *)
Lemma row_columns c1 c2 c3 c4 c5 rest :
  String.length c1 = 12%nat -> String.length c2 = 3%nat ->
  String.length c3 = 3%nat -> String.length c4 = 3%nat ->
  String.length c5 = 3%nat ->
  let row := c1 ++ " | waiting=" ++ c2 ++ " | served=" ++ c3
               ++ " | booked=" ++ c4 ++ "/" ++ c5 ++ " | avg=" ++ rest in
  substring 12 11 row = " | waiting="
  /\ substring 26 10 row = " | served="
  /\ substring 39 10 row = " | booked="
  /\ substring 52 1 row = "/"
  /\ substring 56 7 row = " | avg="
  /\ substring 63 (String.length rest) row = rest.
Proof.
  intros H1 H2 H3 H4 H5.
  do 12 (destruct c1 as [|? c1]; [discriminate H1|]).
  destruct c1; [|discriminate H1].
  do 3 (destruct c2 as [|? c2]; [discriminate H2|]).
  destruct c2; [|discriminate H2].
  do 3 (destruct c3 as [|? c3]; [discriminate H3|]).
  destruct c3; [|discriminate H3].
  do 3 (destruct c4 as [|? c4]; [discriminate H4|]).
  destruct c4; [|discriminate H4].
  do 3 (destruct c5 as [|? c5]; [discriminate H5|]).
  destruct c5; [|discriminate H5].
  cbv zeta. repeat split; try (vm_compute; reflexivity).
  - destruct rest; vm_compute; reflexivity.
  - exact (substring_all rest).
Qed.

Lemma list_services_In m (i : nat) s :
  list_services m !! i = Some s -> exists k, In (k, s) (services m).
Proof.
  intros H. apply list_elem_of_lookup_2, list_elem_of_In in H.
  unfold list_services, Py.dict_values in H.
  apply in_map_iff in H as ([k q] & <- & H). by exists k.
Qed.

Lemma rows_aligned_reachable cfgs cs (i : nat) s row :
  list_services (state_after cfgs cs) !! i = Some s ->
  queue_status_rows (state_after cfgs cs) !! i = Some row ->
  (String.length (ServiceQueue.service_id s) <= 12)%nat ->
  0 <= ServiceQueue.daily_capacity s <= 999 ->
  substring 12 11 row = " | waiting="
  /\ substring 26 10 row = " | served="
  /\ substring 39 10 row = " | booked="
  /\ substring 52 1 row = "/"
  /\ substring 56 7 row = " | avg=".
Proof.
  intros Hs Hr Hid Hcap.
  destruct (list_services_In _ _ _ Hs) as [k Hin].
  destruct (reachable_sq_inv _ _ _ _ Hin) as [_ It _ Is Ic].
  specialize (Ic (proj1 Hcap)).
  assert (Hw : 0 <= ServiceQueue.people_waiting s)
    by (unfold ServiceQueue.people_waiting; lia).
  unfold queue_status_rows in Hr.
  rewrite list_lookup_fmap in Hr. unfold list_services in Hs.
  rewrite Hs in Hr. injection Hr as <-.
  pose proof (row_columns
    (PyText.ljust 12 (ServiceQueue.service_id s))
    (PyText.ljust 3 (PyText.str_int (ServiceQueue.people_waiting s)))
    (PyText.ljust 3 (PyText.str_int (ServiceQueue.served_count s)))
    (PyText.ljust 3
       (PyText.str_int (ServiceQueue.total_bookings_created s)))
    (PyText.ljust 3 (PyText.str_int (ServiceQueue.daily_capacity s)))
    (PyText.str_int (ServiceQueue.avg_service_minutes s)
       ++ "m | est_wait_new="
       ++ PyText.str_int (ServiceQueue.estimate_wait_minutes s) ++ "m"))
    as R.
  rewrite !length_ljust in R.
  pose proof (length_str_int (ServiceQueue.people_waiting s)) as L1.
  pose proof (length_str_int (ServiceQueue.served_count s)) as L2.
  pose proof (length_str_int (ServiceQueue.total_bookings_created s)) as L3.
  pose proof (length_str_int (ServiceQueue.daily_capacity s)) as L4.
  destruct R as (R1 & R2 & R3 & R4 & R5 & _); try lia. done.
Qed.

(** X14. [queue_status_rows] gives one row per service, in the order of
    [list_services], and each row begins with the full service id, however
    long.  In a reachable state the columns line up for every service
    whose id is ASCII text of at most 12 characters and whose capacity
    lies between 0 and 999: the separators stand at fixed places. *)
Theorem status_rows_are_aligned :
  (forall m, length (queue_status_rows m) = length (list_services m))
  /\ (forall m (i : nat) s row,
        list_services m !! i = Some s ->
        queue_status_rows m !! i = Some row ->
        substring 0 (String.length (ServiceQueue.service_id s)) row
        = ServiceQueue.service_id s)
  /\ (forall cfgs cs (i : nat) s row,
        list_services (state_after cfgs cs) !! i = Some s ->
        queue_status_rows (state_after cfgs cs) !! i = Some row ->
        is_ascii (ServiceQueue.service_id s) = true ->
        (String.length (ServiceQueue.service_id s) <= 12)%nat ->
        0 <= ServiceQueue.daily_capacity s <= 999 ->
        substring 12 11 row = " | waiting="
        /\ substring 26 10 row = " | served="
        /\ substring 39 10 row = " | booked="
        /\ substring 52 1 row = "/"
        /\ substring 56 7 row = " | avg=").
Proof.
  split; [intros m; apply length_map|]. split.
  - intros m i s row Hs Hr. unfold queue_status_rows in Hr.
    rewrite list_lookup_fmap in Hr. unfold list_services in Hs.
    rewrite Hs in Hr. injection Hr as <-.
    unfold PyText.ljust at 1. rewrite append_assoc. apply substring_prefix.
  - intros cfgs cs i s row Hs Hr _ Hid Hc.
    by apply (rows_aligned_reachable cfgs cs i s row).
Qed.

Lemma status_rows_are_aligned_witness :
  let m := state_after doctor_cfgs doctor_calls in
  let row := "doctor       | waiting=1   | served=1   | booked=2  /2   | avg=10m | est_wait_new=10m" in
  list_services m !! 1%nat = Some doctor_busy
  /\ queue_status_rows m !! 1%nat = Some row
  /\ is_ascii (ServiceQueue.service_id doctor_busy) = true
  /\ (String.length (ServiceQueue.service_id doctor_busy) <= 12)%nat
  /\ 0 <= ServiceQueue.daily_capacity doctor_busy <= 999
  /\ substring 0 6 row = "doctor"
  /\ substring 12 11 row = " | waiting="
  /\ substring 56 7 row = " | avg=".
Proof.
  intros m row. destruct status_rows_are_aligned as (_ & Pre & Al).
  assert (Hs : list_services m !! 1%nat = Some doctor_busy)
    by (vm_compute; reflexivity).
  assert (Hr : queue_status_rows m !! 1%nat = Some row)
    by (vm_compute; reflexivity).
  assert (Hid : (String.length (ServiceQueue.service_id doctor_busy) <= 12)%nat)
    by (simpl; lia).
  assert (Hc : 0 <= ServiceQueue.daily_capacity doctor_busy <= 999)
    by (simpl; lia).
  destruct (Al doctor_cfgs doctor_calls 1%nat doctor_busy row Hs Hr
              eq_refl Hid Hc) as (A1 & _ & _ & _ & A5).
  split; [exact Hs|]. split; [exact Hr|]. split; [reflexivity|].
  split; [exact Hid|].
  split; [exact Hc|].
  split; [exact (Pre m 1%nat doctor_busy row Hs Hr)|].
  split; [exact A1 | exact A5].
Defined.

(** ** The graph *)

Lemma flat_map_constant_length {A B} (f : A -> list B) (n : nat) l :
  (forall x, In x l -> length (f x) = n) ->
  length (flat_map f l) = (length l * n)%nat.
Proof.
  induction l as [|x l IH]; intros H; [done|]. simpl.
  rewrite length_app, IH, H; [lia | by left | intros y Hy; apply H; by right].
Qed.

Lemma length_graph_block m sid s :
  length (graph_block m sid s) = (1 + length (history m))%nat.
Proof. unfold graph_block. simpl. by rewrite length_imap. Qed.

Lemma dict_get_of_key {V} k (d : Py.dict V) :
  In k (Py.dict_keys d) -> is_Some (Py.dict_get k d).
Proof.
  induction d as [|[k' v] d IH]; simpl; [done|].
  destruct (String.eqb k' k) eqn:E; [by eexists|].
  apply String.eqb_neq in E. intros [H | H]; [done | auto].
Qed.

Lemma snapshot_get k d :
  Py.dict_get k (snapshot_of d)
  = ServiceQueue.people_waiting <$> Py.dict_get k d.
Proof.
  induction d as [|[k' q] d IH]; simpl; [done|].
  by destruct (String.eqb k' k).
Qed.

Lemma count_char_append c a b :
  count_char c (a ++ b) = (count_char c a + count_char c b)%nat.
Proof.
  induction a as [|x a IH]; [reflexivity|].
  change (((if Ascii.eqb x c then 1 else 0) + count_char c (a ++ b))%nat
          = ((if Ascii.eqb x c then 1 else 0) + count_char c a
             + count_char c b)%nat).
  rewrite IH. lia.
Qed.

Lemma count_hash_digits s : all_digits s = true -> count_char "#" s = 0%nat.
Proof.
  induction s as [|x s IH]; [done|]. simpl.
  intros H. apply andb_true_iff in H as [D H]. rewrite (IH H).
  destruct (Ascii.eqb x "#") eqn:E; [|done].
  apply Ascii.eqb_eq in E. subst x. discriminate D.
Qed.

Lemma all_digits_digits n : all_digits (Py.digits n) = true.
Proof. rewrite digits_NilEmpty. apply all_digits_string_of_uint. Qed.

Lemma count_hash_str_int n : count_char "#" (PyText.str_int n) = 0%nat.
Proof.
  unfold PyText.str_int. destruct (n <? 0)%Z.
  - rewrite count_char_append. simpl.
    apply count_hash_digits, all_digits_digits.
  - apply count_hash_digits, all_digits_digits.
Qed.

Lemma count_hash_format_02d n : count_char "#" (PyText.format_02d n) = 0%nat.
Proof.
  unfold PyText.format_02d, Py.zfill. destruct (n <? 0)%Z.
  - rewrite !count_char_append. simpl.
    rewrite !count_hash_digits; auto using all_digits_zeros, all_digits_digits.
  - rewrite !count_char_append.
    rewrite !count_hash_digits; auto using all_digits_zeros, all_digits_digits.
Qed.

Lemma count_hash_bar k : count_char "#" (PyText.repeat_string "#" k) = k.
Proof.
  induction k as [|k IH]; [done|].
  change (S (count_char "#" (PyText.repeat_string "#" k)) = S k).
  by rewrite IH.
Qed.

(** The bar of an event line has one [#] per waiting person, and the line
    has no other [#]. *)
Lemma count_hash_event_line i n :
  count_char "#" (event_line i n) = Z.to_nat n.
Proof.
  unfold event_line, PyText.str_mul. rewrite !count_char_append.
  rewrite count_hash_format_02d, count_hash_str_int, count_hash_bar.
  simpl. lia.
Qed.

(** X15. The graph has its title line and, for every service, a heading
    and one line per history snapshot.  In a reachable state every event
    line shows a count that the snapshot really records for that service
    (the default of [get] is never used), drawn as that many [#]; and the
    last line of a service shows how many are waiting now. *)
Theorem graph_shows_history :
  (forall m,
     length (history_graph_lines m)
     = (1 + length (services m) * (1 + length (history m)))%nat)
  /\ (forall cfgs cs sid s (i : nat) snap,
        In (sid, s) (services (state_after cfgs cs)) ->
        history (state_after cfgs cs) !! i = Some snap ->
        exists n,
          Py.dict_get sid snap = Some n
          /\ graph_block (state_after cfgs cs) sid s !! S i
             = Some (event_line i n)
          /\ count_char "#" (event_line i n) = Z.to_nat n)
  /\ (forall cfgs cs sid s,
        In (sid, s) (services (state_after cfgs cs)) ->
        last (graph_block (state_after cfgs cs) sid s)
        = Some (event_line (length (history (state_after cfgs cs)) - 1)
                  (Z.of_nat (length (ServiceQueue.waiting s))))).
Proof.
  split; [|split].
  - intros m. unfold history_graph_lines. simpl. f_equal.
    apply flat_map_constant_length. intros [k q] _.
    apply length_graph_block.
  - intros cfgs cs sid s i snap Hin Hi.
    assert (Hk : In sid (Py.dict_keys snap)).
    { rewrite (reachable_history_keys cfgs cs snap).
      - unfold state_after in Hin. rewrite <- (run_keys cs (init cfgs)).
        change sid with (fst (sid, s)). by apply in_map.
      - apply list_elem_of_In. by eapply list_elem_of_lookup_2. }
    destruct (dict_get_of_key _ _ Hk) as [n Hn]. exists n.
    split; [done|]. split; [|apply count_hash_event_line].
    unfold graph_block. rewrite lookup_cons.
    rewrite list_lookup_imap, Hi. simpl.
    unfold PyText.dict_get_default. by rewrite Hn.
  - intros cfgs cs sid s Hin.
    pose proof (reachable_history_last cfgs cs) as L.
    pose proof (dict_get_NoDup_In _ _ _ (reachable_keys_NoDup cfgs cs) Hin) as G.
    destruct (history (state_after cfgs cs)) as [|x h] eqn:E using rev_ind;
      [discriminate|].
    clear IHh. rewrite last_snoc in L. injection L as ->.
    unfold graph_block. rewrite E, imap_app. simpl imap.
    rewrite app_comm_cons, last_snoc, length_app. simpl length.
    replace (length h + 1 - 1)%nat with (length h + 0)%nat by lia.
    unfold PyText.dict_get_default. rewrite snapshot_get, G. done.
Qed.

Lemma graph_shows_history_witness :
  let m := state_after doctor_cfgs doctor_calls in
  In ("doctor", doctor_busy) (services m)
  /\ history m !! 2%nat = Some [("cashier", 0); ("doctor", 2)]
  /\ graph_block m "doctor" doctor_busy !! 3%nat = Some "event 02: ## (2)"
  /\ last (graph_block m "doctor" doctor_busy) = Some "event 03: # (1)".
Proof.
  intros m. destruct graph_shows_history as (_ & Ev & La).
  assert (Hin : In ("doctor", doctor_busy) (services m)).
  { vm_compute. right. left. reflexivity. }
  assert (Hi : history m !! 2%nat = Some [("cashier", 0); ("doctor", 2)])
    by (vm_compute; reflexivity).
  split; [exact Hin|]. split; [exact Hi|]. split.
  - destruct (Ev doctor_cfgs doctor_calls "doctor" doctor_busy 2%nat _ Hin Hi)
      as (n & Hn & L & _).
    vm_compute in Hn. injection Hn as <-. exact L.
  - exact (La doctor_cfgs doctor_calls "doctor" doctor_busy Hin).
Defined.

(** ** The service selector of the Streamlit page *)

Lemma options_fold_get l :
  forall (acc : Py.dict string) label sid,
    Py.dict_get label
      (fold_left
         (fun acc s =>
            Py.dict_set (ServiceQueue.display_name s)
              (ServiceQueue.service_id s) acc) l acc) = Some sid ->
    (exists s, In s l /\ ServiceQueue.display_name s = label
               /\ ServiceQueue.service_id s = sid)
    \/ Py.dict_get label acc = Some sid.
Proof.
  induction l as [|x l IH]; intros acc label sid H; [by right|].
  cbn [fold_left] in H. apply IH in H as [(s & Hs & D & I) | H].
  - left. exists s. split; [by right | done].
  - destruct (decide (ServiceQueue.display_name x = label)) as [E | Hne].
    + rewrite E, dict_get_set_eq in H. injection H as <-.
      left. exists x. split; [by left | done].
    + rewrite dict_get_set_ne in H by done. by right.
Qed.

Lemma options_fold_other l :
  forall (acc : Py.dict string) label,
    (forall y, In y l -> ServiceQueue.display_name y <> label) ->
    Py.dict_get label
      (fold_left
         (fun acc s =>
            Py.dict_set (ServiceQueue.display_name s)
              (ServiceQueue.service_id s) acc) l acc)
    = Py.dict_get label acc.
Proof.
  induction l as [|x l IH]; intros acc label H; [done|].
  cbn [fold_left]. rewrite IH by (intros y Hy; apply H; by right).
  apply dict_get_set_ne, H. by left.
Qed.

Lemma options_fold_distinct l :
  NoDup (map ServiceQueue.display_name l) ->
  forall (acc : Py.dict string) s,
    In s l ->
    Py.dict_get (ServiceQueue.display_name s)
      (fold_left
         (fun acc s =>
            Py.dict_set (ServiceQueue.display_name s)
              (ServiceQueue.service_id s) acc) l acc)
    = Some (ServiceQueue.service_id s).
Proof.
  induction l as [|x l IH]; intros Hnd acc s Hin; [done|].
  cbn [map] in Hnd. apply NoDup_cons in Hnd as [Hx Hnd].
  cbn [fold_left]. destruct Hin as [<- | Hin].
  - rewrite options_fold_other; [apply dict_get_set_eq|].
    intros y Hy E. apply Hx. rewrite <- E. apply list_elem_of_In.
    by apply in_map.
  - by apply IH.
Qed.

Lemma every_service_selectable cfgs cs :
  NoDup (map ServiceQueue.display_name
           (list_services (state_after cfgs cs))) ->
  forall sid s,
    In (sid, s) (services (state_after cfgs cs)) ->
    Py.dict_get (ServiceQueue.display_name s)
      (StreamlitApp.service_options (state_after cfgs cs)) = Some sid.
Proof.
  intros Hnd sid s Hin. unfold StreamlitApp.service_options.
  destruct (reachable_sq_inv _ _ _ _ Hin) as [Ik _ _ _ _]. rewrite <- Ik.
  apply options_fold_distinct; [done|].
  unfold list_services, Py.dict_values.
  change s with (snd (sid, s)). by apply in_map.
Qed.

(** X16. Whatever label the selector of the Streamlit page offers stands
    for a configured service of that display name, so the id the page
    passes to [book_slot] or [mark_served] is never an unknown one; and
    when the display names are pairwise distinct every service can be
    selected. *)
Theorem service_options_are_valid cfgs cs :
  (forall label sid,
     Py.dict_get label
       (StreamlitApp.service_options (state_after cfgs cs)) = Some sid ->
     exists s,
       Py.dict_get sid (services (state_after cfgs cs)) = Some s
       /\ ServiceQueue.display_name s = label)
  /\ (NoDup (map ServiceQueue.display_name
               (list_services (state_after cfgs cs))) ->
      forall sid s,
        In (sid, s) (services (state_after cfgs cs)) ->
        Py.dict_get (ServiceQueue.display_name s)
          (StreamlitApp.service_options (state_after cfgs cs)) = Some sid).
Proof.
  split.
  - intros label sid H. unfold StreamlitApp.service_options in H.
    apply options_fold_get in H as [(s & Hs & D & I) | H]; [|done].
    unfold list_services, Py.dict_values in Hs.
    apply in_map_iff in Hs as ([k q] & <- & Hin). simpl in *.
    destruct (reachable_sq_inv _ _ _ _ Hin) as [Ik _ _ _ _].
    exists q. split; [|done]. rewrite <- I, Ik.
    apply dict_get_NoDup_In; [apply reachable_keys_NoDup | done].
  - apply every_service_selectable.
Qed.

Lemma service_options_are_valid_witness :
  let m := state_after doctor_cfgs doctor_calls in
  (Py.dict_get "Doctor Consultation" (StreamlitApp.service_options m)
   = Some "doctor"
   /\ ServiceQueue.display_name <$> Py.dict_get "doctor" (services m)
      = Some "Doctor Consultation")
  /\ (NoDup (map ServiceQueue.display_name (list_services m))
      /\ In ("cashier", cashier_idle) (services m)
      /\ Py.dict_get (ServiceQueue.display_name cashier_idle)
           (StreamlitApp.service_options m) = Some "cashier").
Proof.
  intros m.
  destruct (service_options_are_valid doctor_cfgs doctor_calls)
    as [Valid All].
  assert (H : Py.dict_get "Doctor Consultation"
                (StreamlitApp.service_options m) = Some "doctor")
    by (vm_compute; reflexivity).
  assert (Hnd : NoDup (map ServiceQueue.display_name (list_services m))).
  { vm_compute. repeat (apply NoDup_cons; split;
                          [rewrite ?elem_of_cons, elem_of_nil; intros ?;
                           intuition discriminate|]).
    apply NoDup_nil_2. }
  assert (Hin : In ("cashier", cashier_idle) (services m)).
  { vm_compute. left. reflexivity. }
  split.
  - split; [exact H|].
    destruct (Valid "Doctor Consultation" "doctor" H) as (s & G & D).
    fold m in G. rewrite G. simpl. by rewrite D.
  - split; [exact Hnd|]. split; [exact Hin|].
    exact (All Hnd "cashier" cashier_idle Hin).
Defined.

(** ** The Streamlit page as configured *)

Lemma dict_set_same_image {V B} (f : V -> B) k v v0 (d : Py.dict V) :
  Py.dict_get k d = Some v0 -> f v = f v0 ->
  map (fun e => f e.2) (Py.dict_set k v d) = map (fun e => f e.2) d.
Proof.
  intros G E. induction d as [|[k' v'] d IH]; [done|]. simpl in *.
  destruct (String.eqb k' k) eqn:Ek; simpl.
  - injection G as ->. by rewrite E.
  - by rewrite IH.
Qed.

Lemma run_display_names cs m :
  map ServiceQueue.display_name (list_services (run cs m).2)
  = map ServiceQueue.display_name (list_services m).
Proof.
  unfold list_services, Py.dict_values. rewrite !map_map.
  apply (run_state_ind
           (fun m' => map (fun e => ServiceQueue.display_name e.2) (services m')
                      = map (fun e => ServiceQueue.display_name e.2)
                          (services m))); [done|].
  intros c m' H.
  destruct (exec_services c m') as [-> | (k & s & s' & G & St & ->)]; [done|].
  rewrite <- H. apply dict_set_same_image with s; [done|].
  by destruct (sq_step_later _ _ St).
Qed.

Lemma default_services_small cs sid s :
  In (sid, s) (services (state_after StreamlitApp.DEFAULT_SERVICE_CONFIGS cs)) ->
  (String.length (ServiceQueue.service_id s) <= 12)%nat
  /\ 0 <= ServiceQueue.daily_capacity s <= 999.
Proof.
  intros Hin.
  assert (A : Forall (fun e =>
                (String.length (ServiceQueue.service_id e.2) <= 12)%nat
                /\ 0 <= ServiceQueue.daily_capacity e.2 <= 999)
              (services (state_after StreamlitApp.DEFAULT_SERVICE_CONFIGS cs))).
  { unfold state_after.
    apply (run_state_ind
             (fun m => Forall (fun e =>
                (String.length (ServiceQueue.service_id e.2) <= 12)%nat
                /\ 0 <= ServiceQueue.daily_capacity e.2 <= 999)
                (services m))).
    - vm_compute services. repeat constructor; simpl; lia.
    - intros c m. apply (exec_all (fun _ q =>
        (String.length (ServiceQueue.service_id q) <= 12)%nat
        /\ 0 <= ServiceQueue.daily_capacity q <= 999)).
      intros k q q' [Hi Hc] St. destruct (sq_step_later _ _ St).
      split; congruence. }
  rewrite Forall_forall in A. apply (A (sid, s)). by apply list_elem_of_In.
Qed.

(** X17. The page as shipped, with [DEFAULT_SERVICE_CONFIGS], is clear of
    the corner cases, whatever is booked and served: every admitted
    booking is found in the index under its token, every token has
    exactly three digits, every service can be picked in the selector,
    and the status rows line up. *)
Theorem streamlit_page_is_well_configured cs :
  let cfgs := StreamlitApp.DEFAULT_SERVICE_CONFIGS in
  (forall sid b,
     In b (admitted sid (trace_of cfgs cs)) ->
     booking_index (state_after cfgs cs) !! Booking.token b = Some b)
  /\ (forall sid (i : nat) b,
        admitted sid (trace_of cfgs cs) !! i = Some b ->
        three_digit_token sid (N.of_nat i + 1) (Booking.token b))
  /\ (forall sid s,
        In (sid, s) (services (state_after cfgs cs)) ->
        Py.dict_get (ServiceQueue.display_name s)
          (StreamlitApp.service_options (state_after cfgs cs)) = Some sid)
  /\ (forall (i : nat) s row,
        list_services (state_after cfgs cs) !! i = Some s ->
        queue_status_rows (state_after cfgs cs) !! i = Some row ->
        substring 12 11 row = " | waiting="
        /\ substring 26 10 row = " | served="
        /\ substring 39 10 row = " | booked="
        /\ substring 52 1 row = "/"
        /\ substring 56 7 row = " | avg=").
Proof.
  intros cfgs. split; [|split; [|split]].
  - intros sid b. apply admitted_is_indexed.
    intros k1 k2 H1 H2. vm_compute in H1, H2.
    destruct H1 as [<- | [<- | [<- | []]]], H2 as [<- | [<- | [<- | []]]];
      vm_compute; congruence.
  - intros sid i b H.
    pose proof (admitted_token _ _ _ _ _ H) as T.
    pose proof (lookup_lt_Some _ _ _ H) as Li.
    unfold trace_of in H, Li.
    destruct (Py.dict_get sid (services (init cfgs))) as [s0|] eqn:G0.
    2: { destruct (run_unknown sid cs _ G0) as (A & _). by rewrite A in H. }
    destruct (run_counts sid cs _ _ G0) as (s & G & Tt & _).
    apply dict_get_In, init_service in G0 as (dn & cap & avg & ->).
    simpl in Tt. fold (state_after cfgs cs) in G.
    pose proof (dict_get_In _ _ _ G) as Hin.
    destruct (default_services_small cs sid s Hin) as [_ Hc].
    destruct (reachable_sq_inv _ _ _ _ Hin) as [_ _ _ _ Ic].
    specialize (Ic (proj1 Hc)).
    destruct (format_03d_digits (Z.of_nat (S i))) as [D V]; [lia|].
    destruct (length_format_03d (Z.of_nat (S i))) as [_ L]; [lia|].
    exists (Py.format_03d (Z.of_nat (S i))).
    split; [exact T|]. split; [apply L; lia|]. split; [exact D|].
    rewrite V. f_equal. lia.
  - apply every_service_selectable. unfold state_after.
    rewrite run_display_names. vm_compute.
    repeat (apply NoDup_cons; split;
              [rewrite ?elem_of_cons, elem_of_nil; intros ?;
               intuition discriminate|]).
    apply NoDup_nil_2.
  - intros i s row Hs Hr.
    destruct (list_services_In _ _ _ Hs) as [k Hin].
    destruct (default_services_small cs k s Hin) as [Hi Hc].
    by apply (rows_aligned_reachable cfgs cs i s row).
Qed.

Lemma streamlit_page_is_well_configured_witness :
  let cfgs := StreamlitApp.DEFAULT_SERVICE_CONFIGS in
  let cs := [Book "Asha" "doctor"; Serve "doctor"] in
  let cashier := ServiceQueue.init "cashier" "Cashier" 20 4 in
  let row := "cashier      | waiting=0   | served=0   | booked=0  /20  | avg=4m | est_wait_new=0m" in
  (In asha (admitted "doctor" (trace_of cfgs cs))
   /\ booking_index (state_after cfgs cs) !! "DOCTOR-001" = Some asha)
  /\ (admitted "doctor" (trace_of cfgs cs) !! 0%nat = Some asha
      /\ three_digit_token "doctor" 1 "DOCTOR-001")
  /\ (In ("cashier", cashier) (services (state_after cfgs cs))
      /\ Py.dict_get "Cashier"
           (StreamlitApp.service_options (state_after cfgs cs))
         = Some "cashier")
  /\ (list_services (state_after cfgs cs) !! 0%nat = Some cashier
      /\ queue_status_rows (state_after cfgs cs) !! 0%nat = Some row
      /\ substring 52 1 row = "/").
Proof.
  intros cfgs cs cashier row.
  destruct (streamlit_page_is_well_configured cs) as (Idx & Tok & Sel & Al).
  assert (H : In asha (admitted "doctor" (trace_of cfgs cs))).
  { vm_compute. left. reflexivity. }
  assert (A : admitted "doctor" (trace_of cfgs cs) !! 0%nat = Some asha)
    by (vm_compute; reflexivity).
  assert (Hin : In ("cashier", cashier) (services (state_after cfgs cs))).
  { vm_compute. left. reflexivity. }
  assert (Hs : list_services (state_after cfgs cs) !! 0%nat = Some cashier)
    by (vm_compute; reflexivity).
  assert (Hr : queue_status_rows (state_after cfgs cs) !! 0%nat = Some row)
    by (vm_compute; reflexivity).
  split; [split; [exact H | exact (Idx "doctor" asha H)]|].
  split; [split; [exact A | exact (Tok "doctor" 0%nat asha A)]|].
  split; [split; [exact Hin | exact (Sel "cashier" cashier Hin)]|].
  split; [exact Hs|]. split; [exact Hr|].
  by destruct (Al 0%nat cashier row Hs Hr) as (_ & _ & _ & R & _).
Defined.

Example graph_text_of_fresh_manager :
  print_history_graph (init [("d", "Depot", 1, 1)])
  = "Queue Length vs Event (ASCII graph)" ++ PyText.nl ++ PyText.nl
      ++ "Depot [d]" ++ PyText.nl ++ "event 00:  (0)".
Proof. vm_compute. reflexivity. Qed.

Example duplicate_id_keeps_place_takes_last :
  services (init [("a", "First", 1, 1); ("b", "Other", 1, 1);
                  ("a", "Second", 2, 2)])
  = [("a", ServiceQueue.init "a" "Second" 2 2);
     ("b", ServiceQueue.init "b" "Other" 1 1)].
Proof. reflexivity. Qed.
